(** * ai-project-planner: elicitation session, extraction and generation

    A shallow embedding of [modules/requirements.py], [modules/design.py],
    [modules/user_stories.py] and the parts of [modules/storage.py] they
    call, followed by the properties of the elicitation engine.

    Conventions
    - A Python [str] is a [string]; each [ascii] stands for one code point
      below 256.
    - Every method is a computation in the monad [Py]: it threads the
      mutable world (the gatherer object, the database, the log of calls
      made to the Anthropic client, the console) and ends by returning a
      value or raising an exception.  A raise keeps the mutations made
      before it, as in Python.
    - The Anthropic client, [json.loads] and the rendering of non-string
      values by f-strings are library code: they are variables of the
      development.  [json.loads] returns a value or raises one of three
      exceptions: [JSONDecodeError], a plain [ValueError] (an integer
      literal over the digit limit) or [RecursionError] (nesting too
      deep). *)

From Stdlib Require Import String Ascii List Arith ZArith Lia Bool DecimalString.
Import ListNotations.
Open Scope string_scope.
Open Scope list_scope.
Open Scope nat_scope.

(** ** Python string primitives *)

Module PyStr.

Definition dq : string := String (ascii_of_nat 34) EmptyString.
Definition nl : string := String (ascii_of_nat 10) EmptyString.

(** [str(n)] for a non-negative integer. *)
Definition str (n : nat) : string := NilEmpty.string_of_uint (Nat.to_uint n).

(** [str(z)] for an integer. *)
Definition str_int (z : Z) : string := NilZero.string_of_int (Z.to_int z).

(** The characters [str.strip()] removes: white space in the sense of
    [str.isspace], restricted to code points below 256. *)
Definition isspace (c : ascii) : bool :=
  let n := nat_of_ascii c in
  ((9 <=? n) && (n <=? 13)) || ((28 <=? n) && (n <=? 32))
  || (n =? 133) || (n =? 160).

Fixpoint lstrip (s : string) : string :=
  match s with
  | String c r => if isspace c then lstrip r else s
  | EmptyString => EmptyString
  end.

Fixpoint rstrip (s : string) : string :=
  match s with
  | String c r =>
      match rstrip r with
      | EmptyString => if isspace c then EmptyString else String c EmptyString
      | r' => String c r'
      end
  | EmptyString => EmptyString
  end.

Definition strip (s : string) : string := rstrip (lstrip s).

(** [s.startswith(p)] *)
Definition startswith (s p : string) : bool := String.prefix p s.

(** [s[n:]] *)
Fixpoint slice_from (n : nat) (s : string) : string :=
  match n, s with
  | S k, String _ r => slice_from k r
  | _, _ => s
  end.

(** [s.split(sep)] for a non-empty separator: the text is cut at the
    occurrences of [sep] found from left to right, without overlap.
    [skip] counts the characters of a separator still to be passed,
    [cur] is the segment being read. *)
Fixpoint split_from (sep : string) (skip : nat) (cur s : string) : list string :=
  match s with
  | EmptyString => [cur]
  | String c r =>
      match skip with
      | S k => split_from sep k cur r
      | O =>
          if String.prefix sep s
          then cur :: split_from sep (String.length sep - 1) EmptyString r
          else split_from sep 0 (cur ++ String c EmptyString) r
      end
  end.

Definition split (s sep : string) : list string :=
  split_from sep 0 EmptyString s.

(** [sep.join(l)] *)
Definition join (sep : string) (l : list string) : string := String.concat sep l.

(** Truth value of a string: non-empty. *)
Definition nonempty (s : string) : bool :=
  match s with EmptyString => false | _ => true end.

End PyStr.
Import PyStr.

(** ** Values decoded from JSON *)

(** What [json.loads] builds: [None], [bool], [int], [float], [str],
    [list] and [dict].  A float is kept as the lexeme it was read from; a
    dict is its items in insertion order. *)
#[local] Set Warnings "-register-all".

Inductive PyValue : Type :=
| PyNone
| PyBool (b : bool)
| PyInt (z : Z)
| PyFloat (lexeme : string)
| PyStr (s : string)
| PyList (items : list PyValue)
| PyDict (items : list (string * PyValue)).

(** [json.loads]: the decoded value, or [json.JSONDecodeError] with the
    text of the exception, or one of the two exceptions it raises that are
    not [JSONDecodeError]: a plain [ValueError] when an integer literal has
    more digits than the interpreter converts, [RecursionError] when arrays
    and objects are nested too deep. *)
Inductive LoadsResult : Type :=
| Loaded (v : PyValue)
| Malformed (e : string)
| TooManyDigits (e : string)
| TooDeep.

(** [d.get(k)] on the items of a dict. *)
Fixpoint lookup (k : string) (items : list (string * PyValue)) : option PyValue :=
  match items with
  | [] => None
  | (k', v) :: rest => if String.eqb k k' then Some v else lookup k rest
  end.

(** ** The Anthropic client *)

Record Message : Type := { role : string; content : string }.

(** [{"type": ..., "text": ..., "cache_control": {"type": ...}}] *)
Record SystemBlock : Type :=
  { block_type : string; block_text : string; cache_control : string }.

Inductive SystemParam : Type :=
| SystemText (s : string)
| SystemBlocks (blocks : list SystemBlock).

(** The keyword arguments of [client.messages.create]. *)
Record Request : Type :=
  { model : string;
    max_tokens : Z;
    system : SystemParam;
    messages : list Message }.

(** [response.content] is a list of blocks; [text] is read from the first. *)
Record ContentBlock : Type := { text : string }.
Record Response : Type := { response_content : list ContentBlock }.

(** Failures of the service (authentication, rate limit, network, service). *)
Inductive APIError : Type :=
| AuthenticationError (m : string)
| RateLimitError (m : string)
| APIConnectionError (m : string)
| APIStatusError (m : string).

Inductive ApiResult : Type :=
| ApiReturns (r : Response)
| ApiRaises (e : APIError).

(** ** storage.py *)

Module Project.
Record t : Type := { id : nat; name : string; description : string }.
End Project.

Module Requirement.
Record t : Type := { project_id : nat; category : string; description : string }.
End Requirement.

Module DesignArtifact.
Record t : Type := { project_id : nat; artifact_type : string; content : string }.
End DesignArtifact.

(** The three tables.  Row ids and timestamps of requirements and artifacts
    are assigned by the database engine and are left out. *)
Record Database : Type :=
  { projects : list Project.t;
    requirements : list Requirement.t;
    design_artifacts : list DesignArtifact.t }.

(** [query(Project).filter_by(id=project_id).first()] *)
Definition get_project_row (d : Database) (project_id : nat) : option Project.t :=
  find (fun p => Project.id p =? project_id) (projects d).

(** The relationship [project.requirements]. *)
Definition project_requirements (d : Database) (p : Project.t) : list Requirement.t :=
  filter (fun r => Requirement.project_id r =? Project.id p) (requirements d).

Definition add_design_artifact_row (d : Database) (a : DesignArtifact.t) : Database :=
  {| projects := projects d;
     requirements := requirements d;
     design_artifacts := design_artifacts d ++ [a] |}.

(** [session.add(Project(name=..., description=...)); commit()].  The
    primary key of the new row is chosen by the database engine: it comes
    in as [new_id]. *)
Definition create_project_row (d : Database) (new_id : nat) (name description : string)
  : Database :=
  {| projects := projects d ++ [{| Project.id := new_id;
                                   Project.name := name;
                                   Project.description := description |}];
     requirements := requirements d;
     design_artifacts := design_artifacts d |}.

(** [session.add(Requirement(...)); commit()] *)
Definition add_requirement_row (d : Database) (r : Requirement.t) : Database :=
  {| projects := projects d;
     requirements := requirements d ++ [r];
     design_artifacts := design_artifacts d |}.

(** The relationship [project.design_artifacts]. *)
Definition project_design_artifacts (d : Database) (p : Project.t) : list DesignArtifact.t :=
  filter (fun a => DesignArtifact.project_id a =? Project.id p) (design_artifacts d).

(** [session.delete(project); commit()]: the row goes, and with it, by the
    cascade declared on both relationships, its requirements and its
    design artifacts. *)
Definition delete_project_rows (d : Database) (p : Project.t) : Database :=
  {| projects := filter (fun q => negb (Project.id q =? Project.id p)) (projects d);
     requirements :=
       filter (fun r => negb (Requirement.project_id r =? Project.id p)) (requirements d);
     design_artifacts :=
       filter (fun a => negb (DesignArtifact.project_id a =? Project.id p))
              (design_artifacts d) |}.

(** ** Exceptions, the world and the monad *)

Inductive Exn : Type :=
| ApiFailure (e : APIError)      (* raised by [client.messages.create] *)
| JSONDecodeError (e : string)   (* raised by [json.loads] *)
| ValueError (msg : string)
| RecursionError                 (* raised by [json.loads] on deep nesting *)
| IndexError                     (* [response.content[0]] on an empty list *)
| AttributeError                 (* attribute read on [None] or never set *)
| TypeError.                     (* iteration over a value that is not iterable *)

(** The attributes of a [RequirementsGatherer].  [__init__] sets
    [conversation_history] and [model]; the other three exist only after
    [start_session]. *)
Record RequirementsGatherer : Type :=
  { self_model : string;
    conversation_history : list Message;
    project_name : option string;
    project_description : option string;
    system_prompt : option string }.

Record World : Type :=
  { gatherer : RequirementsGatherer;
    db : Database;
    api_calls : list Request;       (* every call made to the client, in order *)
    stdout : list string }.         (* the argument of every [print], in order *)

Inductive Outcome (A : Type) : Type :=
| Returned (a : A)
| Raised (e : Exn).
Arguments Returned {A} a.
Arguments Raised {A} e.

Definition Py (A : Type) : Type := World -> Outcome A * World.

Definition ret {A} (a : A) : Py A := fun w => (Returned a, w).
Definition raise {A} (e : Exn) : Py A := fun w => (Raised e, w).
Definition bind {A B} (m : Py A) (k : A -> Py B) : Py B :=
  fun w => match m w with
           | (Returned a, w') => k a w'
           | (Raised e, w') => (Raised e, w')
           end.

(** Code that reads no state is written on [Outcome] alone and lifted. *)
Definition and_then {A B} (o : Outcome A) (k : A -> Outcome B) : Outcome B :=
  match o with
  | Returned a => k a
  | Raised e => Raised e
  end.
Definition lift {A} (o : Outcome A) : Py A := fun w => (o, w).

Declare Scope py_scope.
Delimit Scope py_scope with py.
Notation "x <- m ;; k" := (bind m (fun x => k))
  (at level 61, m at next level, right associativity) : py_scope.
Notation "m ;; k" := (bind m (fun _ => k))
  (at level 61, right associativity) : py_scope.
Notation "x <~ o ;; k" := (and_then o (fun x => k))
  (at level 61, o at next level, right associativity) : py_scope.
Open Scope py_scope.

Definition result {A} (m : Py A) (w : World) : Outcome A := fst (m w).
Definition after {A} (m : Py A) (w : World) : World := snd (m w).

Definition set_gatherer (g : RequirementsGatherer) (w : World) : World :=
  {| gatherer := g; db := db w; api_calls := api_calls w; stdout := stdout w |}.
Definition set_db (d : Database) (w : World) : World :=
  {| gatherer := gatherer w; db := d; api_calls := api_calls w; stdout := stdout w |}.

Definition print (line : string) : Py unit :=
  fun w => (Returned tt,
            {| gatherer := gatherer w; db := db w; api_calls := api_calls w;
               stdout := stdout w ++ [line] |}).

(** Reading an attribute that may not have been set. *)
Definition attr {A} (field : RequirementsGatherer -> option A) : Py A :=
  fun w => match field (gatherer w) with
           | Some a => (Returned a, w)
           | None => (Raised AttributeError, w)
           end.

Definition get_history : Py (list Message) :=
  fun w => (Returned (conversation_history (gatherer w)), w).

(** [self.conversation_history.append(m)] *)
Definition history_append (m : Message) : Py unit :=
  fun w =>
    let g := gatherer w in
    (Returned tt,
     set_gatherer {| self_model := self_model g;
                     conversation_history := conversation_history g ++ [m];
                     project_name := project_name g;
                     project_description := project_description g;
                     system_prompt := system_prompt g |} w).

(** [response.content[0].text] *)
Definition first_text (r : Response) : Outcome string :=
  match response_content r with
  | b :: _ => Returned (text b)
  | [] => Raised IndexError
  end.

(** The one block every cached system instruction is made of. *)
Definition ephemeral (s : string) : SystemParam :=
  SystemBlocks [{| block_type := "text"; block_text := s; cache_control := "ephemeral" |}].

Definition user (s : string) : Message := {| role := "user"; content := s |}.
Definition assistant (s : string) : Message := {| role := "assistant"; content := s |}.

(** ** The instruction templates of design.py and user_stories.py *)

Module Templates.

(** [system_prompt], line 73 of design.py *)
Definition complete_design_system : string :=
  "You are an expert software architect and system designer. Your task is to create a comprehensive, professional system design based on the provided requirements.

Your design should be:
- Practical and implementable
- Well-structured and organized
- Technically sound
- Aligned with modern best practices
- Detailed enough for developers to implement

Format your response as a complete system design document in markdown.".

(** [user_prompt], line 84 of design.py *)
Definition complete_design_user (name description requirements_text : string) : string :=
  "Create a comprehensive system design for the following project:

PROJECT: " ++ name ++ "
DESCRIPTION: " ++ description ++ "

" ++ requirements_text ++ "

Generate a complete system design document that includes:

1. SYSTEM ARCHITECTURE
   - High-level architecture overview
   - System components and their responsibilities
   - Component interactions and data flow
   - Architecture diagram description (in text/ASCII)

2. TECHNOLOGY STACK
   - Recommended technologies for each layer
   - Justification for technology choices
   - Alternative options considered

3. DATA MODEL
   - Database schema design
   - Entity relationships
   - Key data structures
   - Data flow and storage strategy

4. API DESIGN
   - API endpoints specification
   - Request/response formats
   - Authentication and authorization approach
   - API versioning strategy

5. COMPONENT SPECIFICATIONS
   - Detailed component breakdown
   - Key classes/modules and their responsibilities
   - Important algorithms or logic

6. SECURITY CONSIDERATIONS
   - Security measures and best practices
   - Data protection strategies
   - Authentication/authorization details

7. DEPLOYMENT ARCHITECTURE
   - Deployment model (cloud, on-premise, hybrid)
   - Infrastructure requirements
   - Scalability considerations
   - Monitoring and logging strategy

8. IMPLEMENTATION ROADMAP
   - Suggested phases for implementation
   - Key milestones
   - Dependencies between components

Provide a well-structured, detailed design document that a development team can use to implement the system.".

(** [system_prompt], line 176 of design.py *)
Definition architecture_system : string :=
  "You are an expert software architect. Create a detailed system architecture design based on the requirements provided.".

(** [user_prompt], line 178 of design.py *)
Definition architecture_user (name description requirements_text : string) : string :=
  "Design a system architecture for:

PROJECT: " ++ name ++ "
DESCRIPTION: " ++ description ++ "

" ++ requirements_text ++ "

Provide:
1. High-level architecture overview
2. System components and their responsibilities
3. Component interactions and communication patterns
4. Data flow between components
5. Architecture diagram description (text/ASCII format)
6. Design patterns to be used
7. Scalability and performance considerations

Format as a detailed architecture document.".

(** [system_prompt], line 232 of design.py *)
Definition data_model_system : string :=
  "You are an expert database architect. Design a comprehensive data model based on the requirements.".

(** [user_prompt], line 234 of design.py *)
Definition data_model_user (name description requirements_text : string) : string :=
  "Design a data model for:

PROJECT: " ++ name ++ "
DESCRIPTION: " ++ description ++ "

" ++ requirements_text ++ "

Provide:
1. Entity-Relationship diagram (text/ASCII format)
2. Detailed table/collection schemas
3. Relationships and foreign keys
4. Indexes for performance
5. Data types and constraints
6. Sample data structures
7. Data validation rules

Format as a detailed data model specification.".

(** [system_prompt], line 288 of design.py *)
Definition api_spec_system : string :=
  "You are an expert API designer. Create a comprehensive API specification based on the requirements.".

(** [user_prompt], line 290 of design.py *)
Definition api_spec_user (name description requirements_text : string) : string :=
  "Design an API specification for:

PROJECT: " ++ name ++ "
DESCRIPTION: " ++ description ++ "

" ++ requirements_text ++ "

Provide:
1. API endpoint listing with HTTP methods
2. Request/response formats (JSON examples)
3. Authentication and authorization mechanism
4. Error handling and status codes
5. Rate limiting and pagination strategies
6. API versioning approach
7. Example request/response for key endpoints

Format as a detailed API specification document.".

(** [system_prompt], line 344 of design.py *)
Definition tech_stack_system : string :=
  "You are an expert technology consultant. Recommend an appropriate technology stack based on the requirements.".

(** [user_prompt], line 346 of design.py *)
Definition tech_stack_user (name description requirements_text : string) : string :=
  "Recommend a technology stack for:

PROJECT: " ++ name ++ "
DESCRIPTION: " ++ description ++ "

" ++ requirements_text ++ "

Provide:
1. Frontend technologies and frameworks
2. Backend technologies and frameworks
3. Database recommendations
4. DevOps and deployment tools
5. Third-party services and APIs
6. Development tools and libraries
7. Justification for each choice
8. Alternative options considered

Format as a detailed technology stack recommendation.".

(** [system_prompt], line 401 of design.py *)
Definition implementation_plan_system : string :=
  "You are an expert project manager and technical lead. Create a practical implementation roadmap.".

(** [user_prompt], line 403 of design.py *)
Definition implementation_plan_user (name description requirements_text : string) : string :=
  "Create an implementation plan for:

PROJECT: " ++ name ++ "
DESCRIPTION: " ++ description ++ "

" ++ requirements_text ++ "

Provide:
1. Implementation phases (MVP, Phase 2, Phase 3, etc.)
2. Features/components for each phase
3. Dependencies between components
4. Key milestones
5. Recommended team structure
6. Estimated complexity for each phase (High/Medium/Low)
7. Risks and mitigation strategies

Format as a detailed implementation roadmap.".

(** [system_prompt], line 457 of design.py *)
Definition diagrams_system : string :=
  "You are an expert system architect. Create comprehensive Mermaid diagrams to visualize the system design.

Mermaid is a markdown-based diagramming language. Use proper Mermaid syntax for all diagrams.".

(** [user_prompt], line 461 of design.py *)
Definition diagrams_user (name description requirements_text : string) : string :=
  "Create Mermaid diagrams for:

PROJECT: " ++ name ++ "
DESCRIPTION: " ++ description ++ "

" ++ requirements_text ++ "

Generate the following diagrams in Mermaid format:

1. **System Architecture Diagram** (C4 or component diagram)
   - Show main system components
   - Show data flow between components
   - Include external systems/APIs

2. **Entity Relationship Diagram (ERD)**
   - Show database entities
   - Show relationships and cardinality
   - Include key attributes

3. **Sequence Diagram** (for main user flow)
   - Show interaction between components
   - Show key processes/workflows

4. **Deployment Diagram**
   - Show infrastructure components
   - Show deployment architecture

For each diagram:
- Provide a clear title and description
- Use proper Mermaid syntax
- Make it detailed and accurate
- Add comments where helpful

Format your response with each diagram clearly labeled and separated.".

(** [system_prompt], line 532 of design.py *)
Definition architecture_recommendations_system : string :=
  "You are a senior software architect with expertise in system design patterns, cloud architecture, and best practices. Provide detailed, actionable architecture recommendations.".

(** [user_prompt], line 534 of design.py *)
Definition architecture_recommendations_user (name description requirements_text : string) : string :=
  "Provide comprehensive architecture recommendations for:

PROJECT: " ++ name ++ "
DESCRIPTION: " ++ description ++ "

" ++ requirements_text ++ "

Provide detailed recommendations covering:

1. **ARCHITECTURE PATTERNS**
   - Recommended architectural style (microservices, monolith, serverless, etc.)
   - Design patterns to use (MVC, MVVM, Repository, etc.)
   - Justification for each choice

2. **LAYERING STRATEGY**
   - Presentation layer approach
   - Business logic layer design
   - Data access layer strategy
   - Cross-cutting concerns (logging, auth, etc.)

3. **SCALABILITY APPROACH**
   - Horizontal vs vertical scaling strategy
   - Caching strategy (where and what)
   - Load balancing recommendations
   - Database scaling approach

4. **RESILIENCE & RELIABILITY**
   - Fault tolerance mechanisms
   - Circuit breaker patterns
   - Retry policies
   - Disaster recovery approach

5. **PERFORMANCE OPTIMIZATION**
   - Performance bottleneck mitigation
   - Database query optimization strategies
   - Caching layers
   - CDN usage

6. **SECURITY ARCHITECTURE**
   - Authentication/authorization strategy
   - Data encryption (at rest and in transit)
   - API security (rate limiting, API keys, OAuth)
   - Security best practices

7. **INTEGRATION PATTERNS**
   - How to integrate with external systems
   - API gateway usage
   - Message queues/event bus
   - Data synchronization strategies

8. **MONITORING & OBSERVABILITY**
   - Logging strategy and tools
   - Metrics and monitoring
   - Distributed tracing
   - Alerting strategy

9. **CLOUD ARCHITECTURE** (if applicable)
   - Cloud provider recommendations
   - Specific cloud services to use
   - Multi-cloud vs single-cloud
   - Cost optimization strategies

10. **TRADE-OFFS & DECISIONS**
    - Key architectural decisions
    - Trade-offs considered
    - Why certain approaches were chosen over alternatives

Provide specific, actionable recommendations with clear reasoning.".

(** [system_prompt], line 66 of user_stories.py *)
Definition user_stories_system : string :=
  "You are an expert Agile product owner and business analyst. Generate comprehensive user stories with detailed acceptance criteria.

Return your response as a JSON array of user stories. Each story must follow this exact structure:
{
    " ++ dq ++ "id" ++ dq ++ ": " ++ dq ++ "US-001" ++ dq ++ ",
    " ++ dq ++ "title" ++ dq ++ ": " ++ dq ++ "Short descriptive title" ++ dq ++ ",
    " ++ dq ++ "user_story" ++ dq ++ ": " ++ dq ++ "As a [role], I want [feature] so that [benefit]" ++ dq ++ ",
    " ++ dq ++ "description" ++ dq ++ ": " ++ dq ++ "Detailed description of what needs to be built" ++ dq ++ ",
    " ++ dq ++ "priority" ++ dq ++ ": " ++ dq ++ "High|Medium|Low" ++ dq ++ ",
    " ++ dq ++ "story_points" ++ dq ++ ": " ++ dq ++ "1|2|3|5|8|13" ++ dq ++ ",
    " ++ dq ++ "epic" ++ dq ++ ": " ++ dq ++ "Epic name this story belongs to" ++ dq ++ ",
    " ++ dq ++ "acceptance_criteria" ++ dq ++ ": [
        " ++ dq ++ "Given [context], when [action], then [outcome]" ++ dq ++ ",
        " ++ dq ++ "Given [context], when [action], then [outcome]" ++ dq ++ "
    ],
    " ++ dq ++ "notes" ++ dq ++ ": " ++ dq ++ "Additional technical notes or dependencies" ++ dq ++ "
}

Ensure all user stories are:
- Written in proper user story format
- Have clear, testable acceptance criteria
- Prioritized appropriately
- Estimated with story points
- Grouped into logical epics".

(** [user_prompt], line 91 of user_stories.py *)
Definition user_stories_user (name description requirements_text : string) : string :=
  "Generate comprehensive user stories for:

PROJECT: " ++ name ++ "
DESCRIPTION: " ++ description ++ "

" ++ requirements_text ++ "

Create a complete set of user stories that cover all functional requirements. Include:
- Clear user story format (As a... I want... So that...)
- Detailed acceptance criteria in Given/When/Then format
- Appropriate priority (High/Medium/Low)
- Story point estimates
- Epic grouping
- Technical notes where relevant

Return ONLY a valid JSON array of user stories, no additional text.".

End Templates.


(** ** A reference JSON decoder

    [json.loads] itself is a variable of the development.  This decoder
    serves as an instance of it on concrete replies: it reads objects,
    arrays, strings, numbers and the literals from left to right, as
    [json.loads] does, and stops at the first failure.  An integer literal
    of more than [max_digits] digits and a nesting deeper than [max_depth]
    end the reading with the two exceptions that are not
    [JSONDecodeError]; [loads] takes the limits of CPython 3.11 (4300
    digits; a recursion limit of 1000, of which a running program has
    already used some frames).  The text of a [JSONDecodeError] names the
    kind of failure only, where the real one also gives the position.
    Texts and decoded strings are over code points below 256, as
    everywhere in this file.  A string with an escape for a higher code
    point has no value in this model: the decoder refuses it, where
    [json.loads] returns the string, so it stands for [json.loads] on
    texts without such an escape only. *)

Module Json.

Definition is_ws (c : ascii) : bool :=
  let n := nat_of_ascii c in (n =? 32) || (n =? 9) || (n =? 10) || (n =? 13).

Fixpoint skip_ws (s : string) : string :=
  match s with
  | String c r => if is_ws c then skip_ws r else s
  | EmptyString => s
  end.

Definition is_digit (c : ascii) : bool :=
  let n := nat_of_ascii c in (48 <=? n) && (n <=? 57).

(** The longest prefix of digits, and what follows it. *)
Fixpoint digits (s : string) : string * string :=
  match s with
  | String c r =>
      if is_digit c then let (d, r') := digits r in (String c d, r') else (EmptyString, s)
  | EmptyString => (EmptyString, s)
  end.

Definition digit_value (c : ascii) : Z := Z.of_nat (nat_of_ascii c - 48).

Fixpoint int_of_digits (acc : Z) (d : string) : Z :=
  match d with
  | String c r => int_of_digits (10 * acc + digit_value c)%Z r
  | EmptyString => acc
  end.

Definition hex_value (c : ascii) : option nat :=
  let n := nat_of_ascii c in
  if (48 <=? n) && (n <=? 57) then Some (n - 48)
  else if (65 <=? n) && (n <=? 70) then Some (n - 55)
  else if (97 <=? n) && (n <=? 102) then Some (n - 87)
  else None.

Definition hex4 (a b c d : ascii) : option nat :=
  match hex_value a, hex_value b, hex_value c, hex_value d with
  | Some x, Some y, Some z, Some t => Some (((x * 16 + y) * 16 + z) * 16 + t)
  | _, _, _, _ => None
  end.

Definition simple_escape (c : ascii) : option ascii :=
  let n := nat_of_ascii c in
  if n =? 34 then Some (ascii_of_nat 34)            (* quote *)
  else if n =? 92 then Some (ascii_of_nat 92)       (* backslash *)
  else if n =? 47 then Some (ascii_of_nat 47)       (* slash *)
  else if n =? 98 then Some (ascii_of_nat 8)        (* b *)
  else if n =? 102 then Some (ascii_of_nat 12)      (* f *)
  else if n =? 110 then Some (ascii_of_nat 10)      (* n *)
  else if n =? 114 then Some (ascii_of_nat 13)      (* r *)
  else if n =? 116 then Some (ascii_of_nat 9)       (* t *)
  else None.

Definition cons_char (c : ascii) (r : option (string * string)) : option (string * string) :=
  match r with
  | Some (body, rest) => Some (String c body, rest)
  | None => None
  end.

(** The text of a string after its opening quote, up to the closing one. *)
Fixpoint string_body (s : string) : option (string * string) :=
  match s with
  | EmptyString => None
  | String c r =>
      let n := nat_of_ascii c in
      if n =? 34 then Some (EmptyString, r)
      else if n =? 92 then
        match r with
        | String e r' =>
            if nat_of_ascii e =? 117 then
              match r' with
              | String h1 (String h2 (String h3 (String h4 r''))) =>
                  match hex4 h1 h2 h3 h4 with
                  | Some code =>
                      if code <? 256 then cons_char (ascii_of_nat code) (string_body r'')
                      else None
                  | None => None
                  end
              | _ => None
              end
            else
              match simple_escape e with
              | Some c' => cons_char c' (string_body r')
              | None => None
              end
        | EmptyString => None
        end
      else if n <? 32 then None
      else cons_char c (string_body r)
  end.

(** The outcome of reading at one place of the text. *)
Inductive Parse : Type :=
| Parsed (v : PyValue) (rest : string)
| Syntax                         (* no value here: [JSONDecodeError] *)
| Digits (n : nat)               (* an integer literal of [n] digits: [ValueError] *)
| Depth.                         (* nested too deep: [RecursionError] *)

(** A number: an optional minus sign, then 0 or a non-zero digit followed
    by digits, then an optional fraction and an optional exponent, each of
    which counts only when it has at least one digit.  Without fraction
    and exponent the literal is converted by [int], which refuses more
    than [max_digits] digits. *)
Definition number (max_digits : nat) (s : string) : Parse :=
  let (sign, s1) :=
    match s with
    | String c r => if nat_of_ascii c =? 45 then ("-", r) else (EmptyString, s)
    | EmptyString => (EmptyString, s)
    end in
  let (all, s2) := digits s1 in
  match all with
  | EmptyString => Syntax
  | String d0 _ =>
      let (int, s2) := if nat_of_ascii d0 =? 48 then ("0", slice_from 1 s1) else (all, s2) in
      let (frac, s3) :=
        match s2 with
        | String c r =>
            if nat_of_ascii c =? 46 then
              match digits r with
              | (EmptyString, _) => (EmptyString, s2)
              | (d, r') => (String c d, r')
              end
            else (EmptyString, s2)
        | EmptyString => (EmptyString, s2)
        end in
      let (exp, s4) :=
        match s3 with
        | String c r =>
            if (nat_of_ascii c =? 101) || (nat_of_ascii c =? 69) then
              let (sg, r1) :=
                match r with
                | String c1 r1 =>
                    if (nat_of_ascii c1 =? 43) || (nat_of_ascii c1 =? 45)
                    then (String c1 EmptyString, r1) else (EmptyString, r)
                | EmptyString => (EmptyString, r)
                end in
              match digits r1 with
              | (EmptyString, _) => (EmptyString, s3)
              | (d, r') => (String c (sg ++ d), r')
              end
            else (EmptyString, s3)
        | EmptyString => (EmptyString, s3)
        end in
      match frac, exp with
      | EmptyString, EmptyString =>
          if max_digits <? String.length int then Digits (String.length int)
          else
            let z := int_of_digits 0 int in
            Parsed (PyInt (if nonempty sign then - z else z)%Z) s4
      | _, _ => Parsed (PyFloat (sign ++ int ++ frac ++ exp)) s4
      end
  end.

(** A literal [word] read as [v]. *)
Definition literal (word : string) (v : PyValue) (s : string) : option (PyValue * string) :=
  if String.prefix word s then Some (v, slice_from (String.length word) s) else None.

Definition first_of {A} (a b : option A) : option A :=
  match a with Some _ => a | None => b end.

Definition parsed (r : option (PyValue * string)) : Parse :=
  match r with
  | Some (v, rest) => Parsed v rest
  | None => Syntax
  end.

Definition scalar (max_digits : nat) (s : string) : Parse :=
  match first_of (literal "null" PyNone s)
        (first_of (literal "true" (PyBool true) s)
                  (literal "false" (PyBool false) s)) with
  | Some (v, rest) => Parsed v rest
  | None =>
      match number max_digits s with
      | Syntax =>
          parsed (first_of (literal "NaN" (PyFloat "NaN") s)
                 (first_of (literal "Infinity" (PyFloat "Infinity") s)
                           (literal "-Infinity" (PyFloat "-Infinity") s)))
      | r => r
      end
  end.

(** [dict(pairs)]: a repeated key keeps its place and takes the later value. *)
Fixpoint dict_set (k : string) (v : PyValue) (items : list (string * PyValue))
  : list (string * PyValue) :=
  match items with
  | [] => [(k, v)]
  | (k', v') :: rest =>
      if String.eqb k k' then (k, v) :: rest else (k', v') :: dict_set k v rest
  end.

(** [value n depth s] reads one value at the start of [s]; [elements] and
    [members] read what follows the first item of an array or object.
    [depth] is the nesting still allowed, tested where an array or an
    object opens; [n] bounds the number of calls. *)
Fixpoint value (max_digits n depth : nat) (s : string) : Parse :=
  match n with
  | O => Syntax
  | S n =>
      match s with
      | String c r =>
          let k := nat_of_ascii c in
          if k =? 34 then
            match string_body r with
            | Some (body, rest) => Parsed (PyStr body) rest
            | None => Syntax
            end
          else if k =? 91 then
            match depth with
            | O => Depth
            | S depth =>
                match skip_ws r with
                | String c' r' =>
                    if nat_of_ascii c' =? 93 then Parsed (PyList []) r'
                    else elements max_digits n depth [] (skip_ws r)
                | EmptyString => Syntax
                end
            end
          else if k =? 123 then
            match depth with
            | O => Depth
            | S depth =>
                match skip_ws r with
                | String c' r' =>
                    if nat_of_ascii c' =? 125 then Parsed (PyDict []) r'
                    else members max_digits n depth [] (skip_ws r)
                | EmptyString => Syntax
                end
            end
          else scalar max_digits s
      | EmptyString => Syntax
      end
  end
with elements (max_digits n depth : nat) (acc : list PyValue) (s : string) : Parse :=
  match n with
  | O => Syntax
  | S n =>
      match value max_digits n depth s with
      | Parsed v rest =>
          match skip_ws rest with
          | String c r =>
              if nat_of_ascii c =? 93 then Parsed (PyList (acc ++ [v])) r
              else if nat_of_ascii c =? 44
                   then elements max_digits n depth (acc ++ [v]) (skip_ws r)
                   else Syntax
          | EmptyString => Syntax
          end
      | failure => failure
      end
  end
with members (max_digits n depth : nat) (acc : list (string * PyValue)) (s : string) : Parse :=
  match n with
  | O => Syntax
  | S n =>
      match s with
      | String q r =>
          if nat_of_ascii q =? 34 then
            match string_body r with
            | Some (key, rest) =>
                match skip_ws rest with
                | String c r1 =>
                    if nat_of_ascii c =? 58 then
                      match value max_digits n depth (skip_ws r1) with
                      | Parsed v rest' =>
                          match skip_ws rest' with
                          | String c' r2 =>
                              if nat_of_ascii c' =? 125
                              then Parsed (PyDict (dict_set key v acc)) r2
                              else if nat_of_ascii c' =? 44
                                   then members max_digits n depth (dict_set key v acc)
                                                (skip_ws r2)
                                   else Syntax
                          | EmptyString => Syntax
                          end
                      | failure => failure
                      end
                    else Syntax
                | EmptyString => Syntax
                end
            | None => Syntax
            end
          else Syntax
      | EmptyString => Syntax
      end
  end.

(** The text of the [ValueError] for a literal of [n] digits. *)
Definition digit_limit_message (max_digits n : nat) : string :=
  "Exceeds the limit (" ++ str max_digits
  ++ " digits) for integer string conversion: value has " ++ str n
  ++ " digits; use sys.set_int_max_str_digits() to increase the limit".

(** The whole document: one value between optional white space. *)
Definition decode (max_digits max_depth : nat) (s : string) : LoadsResult :=
  match value max_digits (2 * String.length s + 2) max_depth (skip_ws s) with
  | Parsed v rest =>
      match skip_ws rest with
      | EmptyString => Loaded v
      | _ => Malformed "Extra data"
      end
  | Syntax => Malformed "Expecting value"
  | Digits n => TooManyDigits (digit_limit_message max_digits n)
  | Depth => TooDeep
  end.

Definition loads : string -> LoadsResult := decode 4300 1000.


End Json.

(** ** Stub clients and starting worlds *)

Definition default_model : string := "claude-sonnet-4-5-20250929".

(** The object after [__init__] (the credential check is left out). *)
Definition new_gatherer : RequirementsGatherer :=
  {| self_model := default_model;
     conversation_history := [];
     project_name := None;
     project_description := None;
     system_prompt := None |}.

Definition reply (s : string) : Response := {| response_content := [{| text := s |}] |}.

(** A client that answers every call with the text [s]. *)
Definition client_replying (s : string) : list Request -> Request -> ApiResult :=
  fun _ _ => ApiReturns (reply s).

(** A client that fails every call with [e]. *)
Definition client_failing (e : APIError) : list Request -> Request -> ApiResult :=
  fun _ _ => ApiRaises e.

Definition empty_db : Database :=
  {| projects := []; requirements := []; design_artifacts := [] |}.

(** The JSON text of a result with one functional requirement, the value
    it stands for, and the same text inside a fenced block. *)
Definition plain_json : string :=
  "{" ++ dq ++ "functional" ++ dq ++ ":[" ++ dq ++ "a" ++ dq ++ "],"
  ++ dq ++ "non_functional" ++ dq ++ ":[]," ++ dq ++ "constraints" ++ dq ++ ":[]}".

Definition one_functional : PyValue :=
  PyDict [("functional", PyList [PyStr "a"]);
          ("non_functional", PyList []);
          ("constraints", PyList [])].

Definition fenced_reply : string := "```json" ++ nl ++ plain_json ++ nl ++ "```".

(** A refusal inside a fenced block. *)
Definition fenced_refusal : string := "```json" ++ nl ++ "I cannot comply" ++ nl ++ "```".

(** Eight answers. *)
Definition eight_answers : list string :=
  ["Web and mobile"; "Card and invoice"; "Ten thousand users"; "Two languages";
   "No guest checkout"; "Daily backups"; "Hosted in the EU"; "Launch in spring"].

(** A story as JSON text and as the value it stands for, and a reply with
    three of them. *)
Definition field (key value : string) : string :=
  dq ++ key ++ dq ++ ": " ++ dq ++ value ++ dq.


Definition story_value (id title : string) : PyValue :=
  PyDict [("id", PyStr id);
          ("title", PyStr title);
          ("user_story", PyStr "As a customer, I want to pay so that I get my order");
          ("description", PyStr "Payment at the end of the checkout");
          ("priority", PyStr "High");
          ("story_points", PyStr "3");
          ("epic", PyStr "Checkout");
          ("acceptance_criteria",
           PyList [PyStr "Given a cart, when I pay, then the order is placed"]);
          ("notes", PyStr "Needs the payment provider")].


(** Stand-ins for [str] on values that are not strings and for the truth
    value of a float. *)
Definition sample_str (v : PyValue) : string :=
  match v with
  | PyNone => "None"
  | PyBool true => "True"
  | PyBool false => "False"
  | PyInt z => str_int z
  | PyFloat lexeme => lexeme
  | PyStr s => s
  | PyList _ => "[...]"
  | PyDict _ => "{...}"
  end.

Definition sample_float_truth (lexeme : string) : bool := true.

(** The digit 1 written [n] times: for [n] over 4300, an integer literal
    that [int] refuses to convert. *)
Fixpoint ones (n : nat) : string :=
  match n with
  | O => EmptyString
  | S k => String (ascii_of_nat 49) (ones k)
  end.

(** A client whose responses have no content. *)
Definition client_without_content : list Request -> Request -> ApiResult :=
  fun _ _ => ApiReturns {| response_content := [] |}.

(** A requirement filed under the key of the extraction result instead of
    the category of the table. *)
Definition misfiled : Requirement.t :=
  {| Requirement.project_id := 1;
     Requirement.category := "constraints";
     Requirement.description := "Hosted in the EU" |}.

(** Nothing asked, nothing stored, nothing called, nothing printed. *)
Definition fresh_world : World :=
  {| gatherer := new_gatherer; db := empty_db; api_calls := []; stdout := [] |}.

(** A project and a database that holds it with the given requirements. *)
Definition shop : Project.t :=
  {| Project.id := 1; Project.name := "Shop"; Project.description := "An online shop" |}.

Definition shop_db (rs : list Requirement.t) : Database :=
  {| projects := [shop]; requirements := rs; design_artifacts := [] |}.

Definition shop_world (rs : list Requirement.t) : World :=
  {| gatherer := new_gatherer; db := shop_db rs; api_calls := []; stdout := [] |}.

Definition checkout : Requirement.t :=
  {| Requirement.project_id := 1;
     Requirement.category := "functional";
     Requirement.description := "Customers can check out" |}.

(** ** requirements.py *)

Section Planner.

(** The client: its answer may depend on the calls made before. *)
Variable client : list Request -> Request -> ApiResult.

(** [json.loads] *)
Variable json_loads : string -> LoadsResult.

(** [self.client.messages.create(...)]: the call is logged, then the
    client answers or raises. *)
Definition messages_create (req : Request) : Py Response :=
  fun w =>
    let w' := {| gatherer := gatherer w; db := db w;
                 api_calls := api_calls w ++ [req]; stdout := stdout w |} in
    match client (api_calls w) req with
    | ApiReturns r => (Returned r, w')
    | ApiRaises e => (Raised (ApiFailure e), w')
    end.

Definition session_system_prompt (project_name project_description : string) : string :=
  "You are an expert software requirements analyst. Your task is to gather comprehensive requirements for a software project through an interactive conversation.

Project: " ++ project_name ++ "
Description: " ++ project_description ++ "

Your goal is to ask exactly 8 focused, insightful questions to understand:
- Key functional requirements (what the system should do)
- Non-functional requirements (performance, security, usability, etc.)
- Technical constraints (platforms, technologies, limitations)
- User needs and use cases

Ask one question at a time. Make each question clear, specific, and relevant to the project context. Build upon previous answers to ask progressively deeper questions.

After all 8 questions are answered, you will extract and categorize the requirements.".

Definition start_session (name description : string) : Py string :=
  fun w =>
    let sp := session_system_prompt name description in
    (Returned sp,
     set_gatherer {| self_model := self_model (gatherer w);
                     conversation_history := [];
                     project_name := Some name;
                     project_description := Some description;
                     system_prompt := Some sp |} w).

Definition first_question_prompt (project_name project_description : string) : string :=
  "This is a requirements gathering session for: " ++ project_name ++ "

Description: " ++ project_description ++ "

Ask your first question (1 of 8) to gather important requirements. Be specific and relevant to this project.".

Definition next_question_prompt (question_number : nat) : string :=
  "Based on the previous answer, ask your next question (" ++ str question_number ++ " of 8). Build upon what you've learned so far.".

Definition is_assistant (m : Message) : bool := String.eqb (role m) "assistant".

(** [len([msg for msg in history if msg["role"] == "assistant"])] *)
Definition asked (h : list Message) : nat := List.length (filter is_assistant h).

Definition ask_next_question (user_response : option string) : Py (option string) :=
  (match user_response with
   | Some r => if nonempty r then history_append (user r) else ret tt
   | None => ret tt
   end) ;;
  h <- get_history ;;
  let question_number := asked h + 1 in
  if 8 <? question_number then ret None
  else
    prompt <- (if question_number =? 1
               then n <- attr project_name ;;
                    d <- attr project_description ;;
                    ret (first_question_prompt n d)
               else ret (next_question_prompt question_number)) ;;
    h <- get_history ;;
    let messages := h ++ [user prompt] in
    sp <- attr system_prompt ;;
    m <- (fun w => (Returned (self_model (gatherer w)), w)) ;;
    response <- messages_create {| model := m;
                                   max_tokens := 500;
                                   system := ephemeral sp;
                                   messages := messages |} ;;
    assistant_message <- lift (first_text response) ;;
    history_append (assistant assistant_message) ;;
    ret (Some assistant_message).

Definition extraction_prompt : string :=
  "Based on the entire conversation above, extract all requirements and categorize them.

Return your response as a JSON object with this exact structure:
{
    " ++ dq ++ "functional" ++ dq ++ ": [
        " ++ dq ++ "requirement description 1" ++ dq ++ ",
        " ++ dq ++ "requirement description 2" ++ dq ++ "
    ],
    " ++ dq ++ "non_functional" ++ dq ++ ": [
        " ++ dq ++ "requirement description 1" ++ dq ++ ",
        " ++ dq ++ "requirement description 2" ++ dq ++ "
    ],
    " ++ dq ++ "constraints" ++ dq ++ ": [
        " ++ dq ++ "constraint description 1" ++ dq ++ ",
        " ++ dq ++ "constraint description 2" ++ dq ++ "
    ]
}

Ensure each requirement is:
- Clear and specific
- Actionable
- Derived from the conversation
- Properly categorized

Return ONLY the JSON object, no additional text.".

(** [try: body except json.JSONDecodeError as e: handler(e)] *)
Definition try_except_JSONDecodeError {A} (body : Py A) (handler : string -> Py A) : Py A :=
  fun w => match body w with
           | (Raised (JSONDecodeError e), w') => handler e w'
           | r => r
           end.

(** [json.loads(s)] as a computation. *)
Definition loads (s : string) : Outcome PyValue :=
  match json_loads s with
  | Loaded v => Returned v
  | Malformed e => Raised (JSONDecodeError e)
  | TooManyDigits e => Raised (ValueError e)
  | TooDeep => Raised RecursionError
  end.

Definition fence : string := "```".

(** "Remove markdown code blocks if present":
[[
    if text.startswith('```'):
        text = text.split('```')[1]
        if text.startswith('json'):
            text = text[4:]
        text = text.strip()
]]
    Both callers run these lines at the head of their [try] block, on the
    stripped reply.  The lines raise no [JSONDecodeError], so the handler of
    that block always sees the text they leave. *)
Definition remove_code_block (text : string) : Outcome string :=
  if startswith text fence then
    match nth_error (split text fence) 1 with
    | Some segment =>
        let segment := if startswith segment "json" then slice_from 4 segment else segment in
        Returned (strip segment)
    | None => Raised IndexError
    end
  else Returned text.

(** The structure returned when parsing fails. *)
Definition empty_requirements : PyValue :=
  PyDict [("functional", PyList []); ("non_functional", PyList []); ("constraints", PyList [])].

Definition extract_requirements : Py PyValue :=
  h <- get_history ;;
  let messages := h ++ [user extraction_prompt] in
  sp <- attr system_prompt ;;
  m <- (fun w => (Returned (self_model (gatherer w)), w)) ;;
  response <- messages_create {| model := m;
                                 max_tokens := 2000;
                                 system := ephemeral sp;
                                 messages := messages |} ;;
  t <- lift (first_text response) ;;
  let requirements_json := strip t in
  requirements_json <- lift (remove_code_block requirements_json) ;;
  try_except_JSONDecodeError
    (requirements <- lift (loads requirements_json) ;;
     ret requirements)
    (fun e =>
       print ("Error parsing requirements JSON: " ++ e) ;;
       print ("Raw response: " ++ requirements_json) ;;
       ret empty_requirements).

Definition is_user (m : Message) : bool := String.eqb (role m) "user".

(** The test by which the summary tells an internal prompt from an answer. *)
Definition internal_prompt (msg : Message) : bool :=
  is_user msg
  && (startswith (content msg) "This is a requirements gathering"
      || startswith (content msg) "Based on the previous answer").

(** The body of the [while] loop of [get_conversation_summary], from the
    message at hand to the end of the history. *)
Fixpoint summary_lines (question_num : nat) (h : list Message) : list string :=
  match h with
  | [] => []
  | msg :: rest =>
      if internal_prompt msg then summary_lines question_num rest
      else if is_assistant msg then
        ("Q" ++ str question_num ++ ": " ++ content msg)%string
          :: summary_lines (question_num + 1) rest
      else if is_user msg then
        ("A: " ++ content msg ++ nl)%string :: summary_lines question_num rest
      else summary_lines question_num rest
  end.

Definition get_conversation_summary : Py string :=
  h <- get_history ;;
  ret (join nl (summary_lines 1 h)).

(** ** design.py *)

(** [db.get_project(project_id)] *)
Definition get_project (project_id : nat) : Py (option Project.t) :=
  fun w => (Returned (get_project_row (db w) project_id), w).

(** [project.requirements], where [project] may be [None]. *)
Definition requirements_of (project : option Project.t) : Py (Project.t * list Requirement.t) :=
  match project with
  | Some p => fun w => (Returned (p, project_requirements (db w) p), w)
  | None => raise AttributeError
  end.

(** [db.add_design_artifact(project_id=..., artifact_type=..., content=...)] *)
Definition add_design_artifact (project_id : nat) (artifact_type content : string) : Py unit :=
  fun w =>
    (Returned tt,
     set_db (add_design_artifact_row (db w)
               {| DesignArtifact.project_id := project_id;
                  DesignArtifact.artifact_type := artifact_type;
                  DesignArtifact.content := content |}) w).

(** [db.create_project(name, description)], the engine choosing [new_id]. *)
Definition create_project (new_id : nat) (name description : string) : Py Project.t :=
  fun w =>
    (Returned {| Project.id := new_id; Project.name := name;
                 Project.description := description |},
     set_db (create_project_row (db w) new_id name description) w).

(** [db.get_all_projects()] *)
Definition get_all_projects : Py (list Project.t) :=
  fun w => (Returned (projects (db w)), w).

(** [db.add_requirement(project_id, category, description)] *)
Definition add_requirement (project_id : nat) (category description : string)
  : Py Requirement.t :=
  fun w =>
    let requirement := {| Requirement.project_id := project_id;
                          Requirement.category := category;
                          Requirement.description := description |} in
    (Returned requirement, set_db (add_requirement_row (db w) requirement) w).

(** [db.delete_project(project_id)] *)
Definition delete_project (project_id : nat) : Py bool :=
  project <- get_project project_id ;;
  match project with
  | Some p =>
      (fun w => (Returned tt, set_db (delete_project_rows (db w) p) w)) ;;
      ret true
  | None => ret false
  end.

Definition in_category (c : string) (r : Requirement.t) : bool :=
  String.eqb (Requirement.category r) c.

(** [f"{i}. {req.description}"] for [i, req in enumerate(rs, 1)] *)
Definition numbered (rs : list Requirement.t) : list string :=
  map (fun ir => (str (fst ir) ++ ". " ++ Requirement.description (snd ir))%string)
      (combine (seq 1 (List.length rs)) rs).

(** One group of the rendering: nothing when the group is empty. *)
Definition group (title : string) (rs : list Requirement.t) : list string :=
  match rs with
  | [] => []
  | _ => title :: numbered rs ++ [EmptyString]
  end.

Definition _format_requirements (requirements : list Requirement.t) : string :=
  let functional := filter (in_category "functional") requirements in
  let non_functional := filter (in_category "non_functional") requirements in
  let constraints := filter (in_category "constraint") requirements in
  join nl (group "FUNCTIONAL REQUIREMENTS:" functional
           ++ group "NON-FUNCTIONAL REQUIREMENTS:" non_functional
           ++ group "CONSTRAINTS:" constraints).

(** The eight methods of [DesignGenerator]. *)
Inductive DesignKind : Type :=
| CompleteDesign
| Architecture
| DataModel
| ApiSpec
| TechStack
| ImplementationPlan
| Diagrams
| ArchitectureRecommendations.

(** The message of the [ValueError] each method raises without requirements. *)
Definition no_requirements (k : DesignKind) : string :=
  match k with
  | CompleteDesign => "Cannot generate design: No requirements found for this project"
  | Architecture => "Cannot generate architecture: No requirements found"
  | DataModel => "Cannot generate data model: No requirements found"
  | ApiSpec => "Cannot generate API spec: No requirements found"
  | TechStack => "Cannot generate tech stack: No requirements found"
  | ImplementationPlan => "Cannot generate implementation plan: No requirements found"
  | Diagrams => "Cannot generate diagrams: No requirements found"
  | ArchitectureRecommendations =>
      "Cannot generate architecture recommendations: No requirements found"
  end.

(** What each method prints before it calls the client. *)
Definition announcement (k : DesignKind) : list string :=
  match k with
  | CompleteDesign => [(nl ++ "Generating comprehensive system design...")%string;
                       ("This may take a moment..." ++ nl)%string]
  | _ => []
  end.

Definition design_system_prompt (k : DesignKind) : string :=
  match k with
  | CompleteDesign => Templates.complete_design_system
  | Architecture => Templates.architecture_system
  | DataModel => Templates.data_model_system
  | ApiSpec => Templates.api_spec_system
  | TechStack => Templates.tech_stack_system
  | ImplementationPlan => Templates.implementation_plan_system
  | Diagrams => Templates.diagrams_system
  | ArchitectureRecommendations => Templates.architecture_recommendations_system
  end.

Definition design_user_prompt (k : DesignKind) : string -> string -> string -> string :=
  match k with
  | CompleteDesign => Templates.complete_design_user
  | Architecture => Templates.architecture_user
  | DataModel => Templates.data_model_user
  | ApiSpec => Templates.api_spec_user
  | TechStack => Templates.tech_stack_user
  | ImplementationPlan => Templates.implementation_plan_user
  | Diagrams => Templates.diagrams_user
  | ArchitectureRecommendations => Templates.architecture_recommendations_user
  end.

Definition design_max_tokens (k : DesignKind) : Z :=
  match k with
  | CompleteDesign => 8000%Z
  | Architecture | DataModel | ApiSpec | Diagrams => 4000%Z
  | TechStack | ImplementationPlan => 3000%Z
  | ArchitectureRecommendations => 6000%Z
  end.

(** The [artifact_type] each method stores its text under. *)
Definition design_artifact_type (k : DesignKind) : string :=
  match k with
  | CompleteDesign => "complete_system_design"
  | Architecture => "architecture"
  | DataModel => "data_model"
  | ApiSpec => "api_specification"
  | TechStack => "technology_stack"
  | ImplementationPlan => "implementation_plan"
  | Diagrams => "mermaid_diagrams"
  | ArchitectureRecommendations => "architecture_recommendations"
  end.

Fixpoint print_all (lines : list string) : Py unit :=
  match lines with
  | [] => ret tt
  | l :: rest => print l ;; print_all rest
  end.

(** The body shared by the eight methods; they differ in the five tables
    above only. *)
Definition generate_design (k : DesignKind) (project : Project.t) : Py string :=
  project <- get_project (Project.id project) ;;
  pr <- requirements_of project ;;
  let (project, requirements) := pr in
  match requirements with
  | [] => raise (ValueError (no_requirements k))
  | _ =>
      let requirements_text := _format_requirements requirements in
      print_all (announcement k) ;;
      response <- messages_create
                    {| model := default_model;
                       max_tokens := design_max_tokens k;
                       system := ephemeral (design_system_prompt k);
                       messages := [user (design_user_prompt k (Project.name project)
                                            (Project.description project)
                                            requirements_text)] |} ;;
      design_content <- lift (first_text response) ;;
      add_design_artifact (Project.id project) (design_artifact_type k) design_content ;;
      ret design_content
  end.

Definition generate_complete_design := generate_design CompleteDesign.
Definition generate_architecture := generate_design Architecture.
Definition generate_data_model := generate_design DataModel.
Definition generate_api_spec := generate_design ApiSpec.
Definition generate_tech_stack := generate_design TechStack.
Definition generate_implementation_plan := generate_design ImplementationPlan.
Definition generate_diagrams := generate_design Diagrams.
Definition generate_architecture_recommendations := generate_design ArchitectureRecommendations.

(** ** user_stories.py *)

(** [str(v)] for a value that is not a string, and the truth value of a
    float read from a lexeme. *)
Variable py_str : PyValue -> string.
Variable float_truth : string -> bool.

(** A value inside an f-string. *)
Definition fmt (v : PyValue) : string :=
  match v with
  | PyStr s => s
  | _ => py_str v
  end.

(** The truth value of a decoded value. *)
Definition truth (v : PyValue) : bool :=
  match v with
  | PyNone => false
  | PyBool b => b
  | PyInt z => negb (Z.eqb z 0)
  | PyFloat x => float_truth x
  | PyStr s => nonempty s
  | PyList l => match l with [] => false | _ => true end
  | PyDict l => match l with [] => false | _ => true end
  end.

(** [story.get(key, default)]: only a dict has [get]. *)
Definition get (story : PyValue) (key : string) (default : PyValue) : Outcome PyValue :=
  match story with
  | PyDict items => Returned (match lookup key items with Some v => v | None => default end)
  | _ => Raised AttributeError
  end.

(** The items a [for] loop draws from a value: the elements of a list, the
    keys of a dict, the characters of a string. *)
Definition iterate (v : PyValue) : Outcome (list PyValue) :=
  match v with
  | PyList l => Returned l
  | PyDict items => Returned (map (fun kv => PyStr (fst kv)) items)
  | PyStr s => Returned (map (fun c => PyStr (String c EmptyString)) (list_ascii_of_string s))
  | _ => Raised TypeError
  end.

Fixpoint repeat_string (s : string) (n : nat) : string :=
  match n with
  | O => EmptyString
  | S k => s ++ repeat_string s k
  end.

(** The lines one story adds to [formatted]. *)
Definition format_story (story : PyValue) : Outcome (list string) :=
  id <~ get story "id" (PyStr "N/A") ;;
  title <~ get story "title" (PyStr "N/A") ;;
  epic <~ get story "epic" (PyStr "N/A") ;;
  priority <~ get story "priority" (PyStr "N/A") ;;
  story_points <~ get story "story_points" (PyStr "N/A") ;;
  user_story <~ get story "user_story" (PyStr "N/A") ;;
  description <~ get story "description" (PyStr "N/A") ;;
  acceptance_criteria <~ get story "acceptance_criteria" (PyList []) ;;
  criteria <~ iterate acceptance_criteria ;;
  notes <~ get story "notes" PyNone ;;
  Returned ([("ID: " ++ fmt id)%string;
        ("Title: " ++ fmt title)%string;
        ("Epic: " ++ fmt epic)%string;
        ("Priority: " ++ fmt priority)%string;
        ("Story Points: " ++ fmt story_points)%string;
        (nl ++ "User Story:")%string;
        ("  " ++ fmt user_story)%string;
        (nl ++ "Description:")%string;
        ("  " ++ fmt description)%string;
        (nl ++ "Acceptance Criteria:")%string]
       ++ map (fun ic => ("  " ++ str (fst ic) ++ ". " ++ fmt (snd ic))%string)
              (combine (seq 1 (List.length criteria)) criteria)
       ++ (if truth notes then [(nl ++ "Notes:")%string; ("  " ++ fmt notes)%string] else [])
       ++ [(nl ++ repeat_string "=" 80 ++ nl)%string]).

Fixpoint format_stories (stories : list PyValue) : Outcome (list string) :=
  match stories with
  | [] => Returned []
  | story :: rest =>
      lines <~ format_story story ;;
      more <~ format_stories rest ;;
      Returned (lines ++ more)
  end.

Definition _format_stories_for_display (user_stories : PyValue) : Outcome string :=
  stories <~ iterate user_stories ;;
  formatted <~ format_stories stories ;;
  Returned (join nl formatted).

Definition generate_user_stories (project : Project.t) : Py PyValue :=
  project <- get_project (Project.id project) ;;
  pr <- requirements_of project ;;
  let (project, requirements) := pr in
  match requirements with
  | [] => raise (ValueError "Cannot generate user stories: No requirements found")
  | _ =>
      let requirements_text := _format_requirements requirements in
      response <- messages_create
                    {| model := default_model;
                       max_tokens := 6000;
                       system := SystemText Templates.user_stories_system;
                       messages := [user (Templates.user_stories_user (Project.name project)
                                            (Project.description project)
                                            requirements_text)] |} ;;
      t <- lift (first_text response) ;;
      let stories_json := strip t in
      stories_json <- lift (remove_code_block stories_json) ;;
      try_except_JSONDecodeError
        (user_stories <- lift (loads stories_json) ;;
         formatted_stories <- lift (_format_stories_for_display user_stories) ;;
         add_design_artifact (Project.id project) "user_stories" formatted_stories ;;
         ret user_stories)
        (fun e =>
           print ("Error parsing user stories JSON: " ++ e) ;;
           print ("Raw response: " ++ stories_json) ;;
           ret (PyList []))
  end.


(** ** What the statements observe *)

(** A session just started for the project "Shop". *)
Definition shop_session : World :=
  snd (start_session "Shop" "An online shop" fresh_world).

Definition history (w : World) : list Message := conversation_history (gatherer w).

(** The world [w] with the transcript replaced by [h]. *)
Definition with_history (h : list Message) (w : World) : World :=
  set_gatherer {| self_model := self_model (gatherer w);
                  conversation_history := h;
                  project_name := project_name (gatherer w);
                  project_description := project_description (gatherer w);
                  system_prompt := system_prompt (gatherer w) |} w.

(** The world [w] after one more call to the client. *)
Definition with_call (req : Request) (w : World) : World :=
  {| gatherer := gatherer w; db := db w;
     api_calls := api_calls w ++ [req]; stdout := stdout w |}.

(** The world [w] after more lines were printed. *)
Definition with_output (lines : list string) (w : World) : World :=
  {| gatherer := gatherer w; db := db w;
     api_calls := api_calls w; stdout := stdout w ++ lines |}.

(** The world [w] with one more artifact in the database. *)
Definition with_artifact (a : DesignArtifact.t) (w : World) : World :=
  set_db (add_design_artifact_row (db w) a) w.

(** The request a design method sends for project [p] with requirements [rs]. *)
Definition design_request (k : DesignKind) (p : Project.t) (rs : list Requirement.t) : Request :=
  {| model := default_model;
     max_tokens := design_max_tokens k;
     system := ephemeral (design_system_prompt k);
     messages := [user (design_user_prompt k (Project.name p) (Project.description p)
                          (_format_requirements rs))] |}.

(** The request [generate_user_stories] sends. *)
Definition user_stories_request (p : Project.t) (rs : list Requirement.t) : Request :=
  {| model := default_model;
     max_tokens := 6000;
     system := SystemText Templates.user_stories_system;
     messages := [user (Templates.user_stories_user (Project.name p) (Project.description p)
                          (_format_requirements rs))] |}.

Definition no_requirements_for_stories : string :=
  "Cannot generate user stories: No requirements found".

(** A session whose three attributes were set by [start_session]. *)
Definition started (w : World) (n d sp : string) : Prop :=
  project_name (gatherer w) = Some n
  /\ project_description (gatherer w) = Some d
  /\ system_prompt (gatherer w) = Some sp.

(** The turn a call of [ask_next_question] first appends for its argument. *)
Definition answer_turn (user_response : option string) : list Message :=
  match user_response with
  | Some r => if nonempty r then [user r] else []
  | None => []
  end.

(** The request sent for the next question when the transcript is [h]. *)
Definition question_request (m sp n d : string) (h : list Message) : Request :=
  {| model := m;
     max_tokens := 500;
     system := ephemeral sp;
     messages := h ++ [user (if asked h + 1 =? 1 then first_question_prompt n d
                             else next_question_prompt (asked h + 1))] |}.

(** The request sent for the extraction when the transcript is [h]. *)
Definition extraction_request (m sp : string) (h : list Message) : Request :=
  {| model := m;
     max_tokens := 2000;
     system := ephemeral sp;
     messages := h ++ [user extraction_prompt] |}.

(** [ask_next_question] called once for each element of [rs], in order. *)
Fixpoint ask_each (rs : list (option string)) : Py (list (option string)) :=
  match rs with
  | [] => ret []
  | r :: rest =>
      q <- ask_next_question r ;;
      qs <- ask_each rest ;;
      ret (q :: qs)
  end.

(** A whole session: [start_session], then one call per element of [rs]. *)
Definition session (name description : string) (rs : list (option string))
  : Py (list (option string)) :=
  start_session name description ;; ask_each rs.

(** The roles of [h] alternate, the first one being [next]. *)
Fixpoint alternates (next other : string) (h : list Message) : bool :=
  match h with
  | [] => true
  | m :: rest => String.eqb (role m) next && alternates other next rest
  end.

(** The transcript of questions [qs] answered by [answers], pair by pair. *)
Fixpoint dialogue (qs answers : list string) : list Message :=
  match qs, answers with
  | q :: qs', a :: answers' => assistant q :: user a :: dialogue qs' answers'
  | _, _ => []
  end.

(** The turns that answers [answers] and the questions [qs] they draw add
    to the transcript. *)
Definition rounds (answers qs : list string) : list Message :=
  flat_map (fun aq => [user (fst aq); assistant (snd aq)]) (combine answers qs).

(** The text handed to [json.loads] for the reply text [t]: [t] trimmed
    and, when it then begins with a fence, cut down to what stands between
    the first two fences, without a leading [json], trimmed again. *)
Definition candidate (t : string) : string :=
  let s := strip t in
  if startswith s fence then
    let segment := nth 1 (split s fence) EmptyString in
    strip (if startswith segment "json" then slice_from 4 segment else segment)
  else s.

(** [sub] occurs in [s]. *)
Fixpoint contains (s sub : string) : bool :=
  String.prefix sub s
  || match s with
     | String _ r => contains r sub
     | EmptyString => false
     end.

(** Some line printed between [w] and [w'] contains the text [t]. *)
Definition reported (w w' : World) (t : string) : bool :=
  existsb (fun line => contains line t) (skipn (List.length (stdout w)) (stdout w')).

(** [v] is a dict that maps [key] to a list of strings. *)
Definition maps_to_strings (v : PyValue) (key : string) : bool :=
  match v with
  | PyDict items =>
      match lookup key items with
      | Some (PyList l) => forallb (fun x => match x with PyStr _ => true | _ => false end) l
      | _ => false
      end
  | _ => false
  end.

(** The shape of an extraction result: the three category keys, each with
    a list of strings. *)
Definition requirements_shaped (v : PyValue) : bool :=
  maps_to_strings v "functional" && maps_to_strings v "non_functional"
  && maps_to_strings v "constraints".



(** No character of [s] is a backtick. *)
Fixpoint no_backtick (s : string) : bool :=
  match s with
  | EmptyString => true
  | String c r => negb (nat_of_ascii c =? 96) && no_backtick r
  end.

(** The text of an answer begins like one of the two internal prompts. *)
Definition looks_internal (a : string) : bool :=
  startswith a "This is a requirements gathering"
  || startswith a "Based on the previous answer".

(** The lines of a summary of questions [qs] and their answers, the first
    question bearing the number [n]. *)
Fixpoint qa_lines (n : nat) (qs answers : list string) : list string :=
  match qs, answers with
  | q :: qs', a :: answers' =>
      ("Q" ++ str n ++ ": " ++ q)%string :: ("A: " ++ a ++ nl)%string
        :: qa_lines (n + 1) qs' answers'
  | _, _ => []
  end.

(** The three categories [_format_requirements] renders. *)
Definition known_category (r : Requirement.t) : bool :=
  in_category "functional" r || in_category "non_functional" r
  || in_category "constraint" r.

(** A story the rendering gets through: a dict whose acceptance criteria,
    when there are any, can be iterated over. *)
Definition renderable (story : PyValue) : bool :=
  match story with
  | PyDict items =>
      match lookup "acceptance_criteria" items with
      | None | Some (PyList _) | Some (PyStr _) | Some (PyDict _) => true
      | Some _ => false
      end
  | _ => false
  end.

(** Every project of [d] has a primary key of its own. *)
Definition primary_keys (d : Database) : Prop := NoDup (map Project.id (projects d)).

Arguments session_system_prompt : simpl never.
Arguments first_question_prompt : simpl never.
Arguments next_question_prompt : simpl never.
Arguments extraction_prompt : simpl never.
Arguments _format_requirements : simpl never.
Arguments design_system_prompt : simpl never.
Arguments design_user_prompt : simpl never.
Arguments Templates.user_stories_system : simpl never.
Arguments Templates.user_stories_user : simpl never.

(** * Properties *)

(** ** The monad *)

Lemma bind_returned {A B} (m : Py A) (k : A -> Py B) (w w' : World) (a : A) :
  m w = (Returned a, w') -> bind m k w = k a w'.
Proof. unfold bind; intros ->; reflexivity. Qed.

Lemma bind_raised {A B} (m : Py A) (k : A -> Py B) (w w' : World) (e : Exn) :
  m w = (Raised e, w') -> bind m k w = (Raised e, w').
Proof. unfold bind; intros ->; reflexivity. Qed.

(** ** The transcript *)

Lemma asked_app (h1 h2 : list Message) : asked (h1 ++ h2) = asked h1 + asked h2.
Proof. unfold asked; rewrite filter_app, length_app; reflexivity. Qed.

Lemma asked_answer_turn (r : option string) : asked (answer_turn r) = 0.
Proof. destruct r as [r|]; simpl; [destruct (nonempty r)|]; reflexivity. Qed.

Lemma asked_with_answer (h : list Message) (r : option string) :
  asked (h ++ answer_turn r) = asked h.
Proof. rewrite asked_app, asked_answer_turn; lia. Qed.

(** The first statement of [ask_next_question]. *)
Lemma append_answer (r : option string) (w : World) :
  (match r with
   | Some r => if nonempty r then history_append (user r) else ret tt
   | None => ret tt
   end) w = (Returned tt, with_history (history w ++ answer_turn r) w).
Proof.
  destruct w as [[m h pn pd sp] d c o]; unfold with_history, history, answer_turn; simpl.
  destruct r as [r|]; [destruct (nonempty r)|]; cbn;
    unfold set_gatherer; simpl; rewrite ?app_nil_r; reflexivity.
Qed.

(** Once eight questions were asked, a call only records the answer. *)
Lemma ask_next_question_done (r : option string) (w : World) :
  8 <= asked (history w) ->
  ask_next_question r w = (Returned None, with_history (history w ++ answer_turn r) w).
Proof.
  intros Hb. unfold ask_next_question.
  rewrite (bind_returned _ _ _ _ _ (append_answer r w)).
  unfold bind, get_history at 1.
  replace (conversation_history (gatherer (with_history (history w ++ answer_turn r) w)))
    with (history w ++ answer_turn r) by (destruct w as [[? ? ? ? ?] ? ? ?]; reflexivity).
  rewrite asked_with_answer.
  destruct (Nat.ltb_spec 8 (asked (history w) + 1)); [reflexivity | lia].
Qed.

(** Below the bound, a call sends one request; what happens next is the
    client's answer. *)
Lemma ask_next_question_run (r : option string) (w : World) (n d sp : string) :
  started w n d sp ->
  asked (history w) < 8 ->
  let h := history w ++ answer_turn r in
  let req := question_request (self_model (gatherer w)) sp n d h in
  let w1 := with_call req (with_history h w) in
  ask_next_question r w =
    match client (api_calls w) req with
    | ApiReturns resp =>
        match first_text resp with
        | Returned q => (Returned (Some q), with_history (h ++ [assistant q]) w1)
        | Raised e => (Raised e, w1)
        end
    | ApiRaises e => (Raised (ApiFailure e), w1)
    end.
Proof.
  intros (Hn & Hd & Hsp) Hb h req w1. unfold ask_next_question.
  rewrite (bind_returned _ _ _ _ _ (append_answer r w)). fold h.
  assert (Hh : asked h < 8) by (unfold h; rewrite asked_with_answer; exact Hb).
  subst w1 req. unfold question_request.
  destruct w as [[m h0 pn pd spo] db0 c o]; simpl in Hn, Hd, Hsp; subst pn pd spo.
  unfold bind, get_history, with_history, set_gatherer, with_call, attr, messages_create,
    lift, ret, history_append; simpl.
  destruct (Nat.ltb_spec 8 (asked h + 1)); [lia|].
  destruct (asked h + 1 =? 1); simpl;
    (destruct (client c _) as [resp|e]; [|reflexivity]);
    (destruct (first_text resp) as [q|e]; reflexivity).
Qed.

Lemma history_with_history (h : list Message) (w : World) : history (with_history h w) = h.
Proof. reflexivity. Qed.

Lemma started_with_history (h : list Message) (w : World) (n d sp : string) :
  started w n d sp -> started (with_history h w) n d sp.
Proof. intros H; exact H. Qed.

Lemma started_with_call (req : Request) (w : World) (n d sp : string) :
  started w n d sp -> started (with_call req w) n d sp.
Proof. intros H; exact H. Qed.

Lemma answer_turn_some (a : string) : nonempty a = true -> answer_turn (Some a) = [user a].
Proof. unfold answer_turn; intros ->; reflexivity. Qed.

(** C1. Once the transcript holds at least eight asker turns,
    [ask_next_question] returns [None] and calls the client zero times;
    while it holds fewer, a started session calls the client exactly once. *)
Theorem ask_next_question_bound (r : option string) (w : World) (n d sp : string) :
  (8 <= asked (history w) ->
   result (ask_next_question r) w = Returned None
   /\ api_calls (after (ask_next_question r) w) = api_calls w)
  /\ (asked (history w) < 8 ->
      started w n d sp ->
      api_calls (after (ask_next_question r) w)
      = api_calls w ++ [question_request (self_model (gatherer w)) sp n d
                          (history w ++ answer_turn r)]).
Proof.
  split.
  - intros Hb. unfold result, after. rewrite (ask_next_question_done r w Hb).
    split; reflexivity.
  - intros Hb Hs. unfold after. rewrite (ask_next_question_run r w n d sp Hs Hb).
    destruct (client _ _) as [resp|e]; [destruct (first_text resp)|]; reflexivity.
Qed.

(** Whatever happens, a call only appends to the transcript. *)
Lemma ask_next_question_appends (r : option string) (w : World) :
  exists suffix, history (after (ask_next_question r) w) = history w ++ suffix.
Proof.
  unfold after, ask_next_question.
  rewrite (bind_returned _ _ _ _ _ (append_answer r w)).
  set (h := history w ++ answer_turn r).
  destruct w as [[m h0 pn pd spo] db0 c o].
  unfold bind, get_history, with_history, set_gatherer, attr, messages_create,
    lift, ret, history_append, history in *; simpl in *.
  destruct (8 <? asked h + 1); simpl; [exists (answer_turn r); reflexivity|].
  destruct (asked h + 1 =? 1); simpl.
  - destruct pn as [n|]; simpl; [|exists (answer_turn r); reflexivity].
    destruct pd as [d|]; simpl; [|exists (answer_turn r); reflexivity].
    destruct spo as [sp|]; simpl; [|exists (answer_turn r); reflexivity].
    destruct (client c _) as [resp|e]; simpl; [|exists (answer_turn r); reflexivity].
    destruct (first_text resp) as [q|e]; simpl; [|exists (answer_turn r); reflexivity].
    exists (answer_turn r ++ [assistant q]). subst h. rewrite app_assoc. reflexivity.
  - destruct spo as [sp|]; simpl; [|exists (answer_turn r); reflexivity].
    destruct (client c _) as [resp|e]; simpl; [|exists (answer_turn r); reflexivity].
    destruct (first_text resp) as [q|e]; simpl; [|exists (answer_turn r); reflexivity].
    exists (answer_turn r ++ [assistant q]). subst h. rewrite app_assoc. reflexivity.
Qed.

Lemma ask_each_appends (rs : list (option string)) (w : World) :
  exists suffix, history (after (ask_each rs) w) = history w ++ suffix.
Proof.
  revert w; induction rs as [|r rs IH]; intros w.
  - exists []. rewrite app_nil_r. reflexivity.
  - destruct (ask_next_question_appends r w) as (s1 & E1).
    unfold after in *. simpl. unfold bind at 1.
    destruct (ask_next_question r w) as [[q|e] w1]; simpl in *.
    + destruct (IH w1) as (s2 & E2). unfold bind.
      destruct (ask_each rs w1) as [[qs|e] w2]; simpl in *;
        exists (s1 ++ s2); rewrite E2, E1, app_assoc; reflexivity.
    + exists s1. exact E1.
Qed.

(** The transcript after the first calls of a run is a prefix of the
    transcript after all of them. *)
Lemma ask_each_prefix (rs1 rs2 : list (option string)) (w : World) :
  exists suffix,
    history (after (ask_each (rs1 ++ rs2)) w) = history (after (ask_each rs1) w) ++ suffix.
Proof.
  revert w; induction rs1 as [|r rs1 IH]; intros w.
  - apply ask_each_appends.
  - unfold after in *. simpl. unfold bind at 1 3.
    destruct (ask_next_question r w) as [[q|e] w1]; simpl.
    + destruct (IH w1) as (s & E). unfold bind.
      destruct (ask_each (rs1 ++ rs2) w1) as [[qs|e] w2];
        destruct (ask_each rs1 w1) as [[qs'|e'] w2']; simpl in *; exists s; exact E.
    + exists []. rewrite app_nil_r. reflexivity.
Qed.

(** One call below the bound against a client that answers. *)
Lemma ask_step {B} (r : option string) (k : option string -> Py B)
      (w : World) (n d sp : string) :
  (forall log req, exists b bs,
      client log req = ApiReturns {| response_content := b :: bs |}) ->
  started w n d sp ->
  asked (history w) < 8 ->
  exists q req,
    bind (ask_next_question r) k w
    = k (Some q) (with_history (history w ++ answer_turn r ++ [assistant q]) (with_call req w)).
Proof.
  intros Hc Hs Hb.
  set (req := question_request (self_model (gatherer w)) sp n d (history w ++ answer_turn r)).
  destruct (Hc (api_calls w) req) as (b & bs & E).
  exists (text b), req. unfold bind.
  rewrite (ask_next_question_run r w n d sp Hs Hb). fold req. rewrite E. simpl.
  rewrite <- app_assoc. destruct w as [[? ? ? ? ?] ? ? ?]; reflexivity.
Qed.

Lemma with_history_id (w : World) : with_history (history w) w = w.
Proof. destruct w as [[? ? ? ? ?] ? ? ?]; reflexivity. Qed.

(** Past the bound, a run of answers is recorded and nothing else happens. *)
Lemma ask_each_done (rs : list string) (w : World) :
  8 <= asked (history w) ->
  forallb nonempty rs = true ->
  ask_each (map Some rs) w
  = (Returned (map (fun _ => None) rs), with_history (history w ++ map user rs) w).
Proof.
  revert w; induction rs as [|r rs IH]; intros w Hb Hne; simpl.
  - rewrite app_nil_r, with_history_id. reflexivity.
  - simpl in Hne. apply andb_prop in Hne as [Hr Hrs].
    rewrite (bind_returned _ _ _ _ _ (ask_next_question_done (Some r) w Hb)).
    rewrite (answer_turn_some r Hr).
    set (w1 := with_history (history w ++ [user r]) w).
    assert (Hb1 : 8 <= asked (history w1))
      by (unfold w1; rewrite history_with_history, asked_app; lia).
    rewrite (bind_returned _ _ _ _ _ (IH w1 Hb1 Hrs)).
    unfold w1. rewrite history_with_history, <- app_assoc. reflexivity.
Qed.

(** C10. With eight asker turns in the transcript, a call that brings a
    non-empty answer still appends it as a responder turn and returns
    [None]; so a run of such calls appends one responder turn each, one
    next to the other, and the transcript grows past sixteen turns. *)
Theorem answer_after_bound_is_recorded (w : World) :
  8 <= asked (history w) ->
  (forall r, nonempty r = true ->
     result (ask_next_question (Some r)) w = Returned None
     /\ history (after (ask_next_question (Some r)) w) = history w ++ [user r]
     /\ api_calls (after (ask_next_question (Some r)) w) = api_calls w)
  /\ (forall rs, forallb nonempty rs = true ->
     result (ask_each (map Some rs)) w = Returned (map (fun _ => None) rs)
     /\ history (after (ask_each (map Some rs)) w) = history w ++ map user rs
     /\ List.length (history (after (ask_each (map Some rs)) w))
        = List.length (history w) + List.length rs
     /\ api_calls (after (ask_each (map Some rs)) w) = api_calls w).
Proof.
  intros Hb; split.
  - intros r Hr. unfold result, after.
    rewrite (ask_next_question_done (Some r) w Hb), (answer_turn_some r Hr).
    repeat split; reflexivity.
  - intros rs Hrs. unfold result, after. rewrite (ask_each_done rs w Hb Hrs). simpl.
    rewrite history_with_history, length_app, length_map. repeat split; reflexivity.
Qed.

Lemma session_prefix (name description : string) (rs : list (option string))
      (k : nat) (w : World) :
  exists suffix,
    history (after (session name description rs) w)
    = history (after (session name description (firstn k rs)) w) ++ suffix.
Proof.
  unfold after, session, bind, start_session.
  match goal with
  | |- context [ask_each rs ?w1] =>
      pose proof (ask_each_prefix (firstn k rs) (skipn k rs) w1) as Hp
  end.
  rewrite firstn_skipn in Hp. exact Hp.
Qed.

Lemma ask_each_cons (r : option string) (rs : list (option string)) :
  ask_each (r :: rs) = (q <- ask_next_question r ;; qs <- ask_each rs ;; ret (q :: qs)).
Proof. reflexivity. Qed.

Lemma ask_each_app (rs1 rs2 : list (option string)) (w : World) :
  ask_each (rs1 ++ rs2) w
  = match ask_each rs1 w with
    | (Returned qs1, w1) =>
        match ask_each rs2 w1 with
        | (Returned qs2, w2) => (Returned (qs1 ++ qs2), w2)
        | (Raised e, w2) => (Raised e, w2)
        end
    | (Raised e, w1) => (Raised e, w1)
    end.
Proof.
  revert w; induction rs1 as [|r rs1 IH]; intros w; simpl.
  - unfold ret. destruct (ask_each rs2 w) as [[qs|e] w2]; reflexivity.
  - unfold bind at 1 3. destruct (ask_next_question r w) as [[q|e] w1]; [|reflexivity].
    unfold bind. rewrite IH.
    destruct (ask_each rs1 w1) as [[qs1|e] w2]; [|reflexivity].
    unfold ret; simpl.
    destruct (ask_each rs2 w2) as [[qs2|e] w3]; reflexivity.
Qed.

(** Below the bound, every answer of a run draws a question. *)
Lemma ask_rounds (n d sp : string) (answers : list string) (w : World) :
  (forall log req, exists b bs,
      client log req = ApiReturns {| response_content := b :: bs |}) ->
  started w n d sp ->
  forallb nonempty answers = true ->
  asked (history w) + List.length answers <= 8 ->
  exists qs w',
    List.length qs = List.length answers
    /\ ask_each (map Some answers) w = (Returned (map Some qs), w')
    /\ history w' = history w ++ rounds answers qs
    /\ started w' n d sp.
Proof.
  intros Hc. revert w; induction answers as [|a answers IH]; intros w Hs Hne Hb.
  - exists [], w. unfold rounds; simpl. rewrite app_nil_r. repeat split; apply Hs.
  - simpl in Hne, Hb. apply andb_prop in Hne as [Ha Hne].
    simpl ask_each.
    destruct (ask_step (Some a)
                (fun q => qs <- ask_each (map Some answers) ;; ret (q :: qs))
                w n d sp Hc Hs ltac:(lia)) as (q & req & E).
    rewrite E; clear E. rewrite (answer_turn_some a Ha).
    set (w1 := with_history (history w ++ [user a] ++ [assistant q]) (with_call req w)).
    assert (Hs1 : started w1 n d sp) by exact Hs.
    assert (Hb1 : asked (history w1) + List.length answers <= 8).
    { unfold w1. rewrite history_with_history, !asked_app. cbn. lia. }
    destruct (IH w1 Hs1 Hne Hb1) as (qs & w' & Hl & Hr & Hh & Hs').
    exists (q :: qs), w'. unfold bind. rewrite Hr. simpl.
    repeat split; try assumption; try (f_equal; assumption).
    rewrite Hh. unfold w1. rewrite history_with_history.
    all: try (unfold rounds; simpl; rewrite <- app_assoc; reflexivity).
    all: apply Hs'.
Qed.

(** C2. A session that is started, asked for eight questions (every call
    after the first bringing a non-empty answer) and then given the last
    answer, against a client that answers every call, ends with a
    transcript of sixteen turns, eight of each role, alternating from an
    asker turn; the transcript after any number of these calls is a prefix
    of the final one. *)
Theorem completed_session_transcript (name description : string)
        (answers : list string) (w : World) :
  (forall log req, exists b bs,
      client log req = ApiReturns {| response_content := b :: bs |}) ->
  List.length answers = 8 ->
  forallb nonempty answers = true ->
  let rs := None :: map Some answers in
  exists qs,
    List.length qs = 8
    /\ result (session name description rs) w = Returned (map Some qs ++ [None])
    /\ history (after (session name description rs) w) = dialogue qs answers
    /\ List.length (history (after (session name description rs) w)) = 16
    /\ alternates "assistant" "user" (history (after (session name description rs) w)) = true
    /\ asked (history (after (session name description rs) w)) = 8
    /\ (forall k, exists suffix,
           history (after (session name description rs) w)
           = history (after (session name description (firstn k rs)) w) ++ suffix).
Proof.
  intros Hc Hlen Hne rs.
  destruct answers as [|a1 [|a2 [|a3 [|a4 [|a5 [|a6 [|a7 [|a8 [|]]]]]]]]];
    try discriminate Hlen.
  simpl in Hne.
  repeat match type of Hne with
         | (_ && _) = true => let H := fresh "Ha" in apply andb_prop in Hne as [H Hne]
         end.
  cut (exists qs,
    List.length qs = 8
    /\ result (session name description rs) w = Returned (map Some qs ++ [None])
    /\ history (after (session name description rs) w)
       = dialogue qs [a1; a2; a3; a4; a5; a6; a7; a8]).
  { intros (qs & Hq & Hr & Hh). exists qs.
    destruct qs as [|q1 [|q2 [|q3 [|q4 [|q5 [|q6 [|q7 [|q8 [|]]]]]]]]];
      try discriminate Hq.
    rewrite Hh. repeat split; try reflexivity; try assumption.
    intros k. rewrite <- Hh. apply session_prefix. }
  subst rs. unfold result, after, session.
  set (w0 := with_history [] (snd (start_session name description w))).
  change (bind (start_session name description)
               (fun _ => ask_each (None :: map Some [a1; a2; a3; a4; a5; a6; a7; a8])) w)
    with (ask_each (None :: map Some [a1; a2; a3; a4; a5; a6; a7; a8]) w0).
  set (sp := session_system_prompt name description).
  assert (Hs0 : started w0 name description sp) by (repeat split).
  change (None :: map Some [a1; a2; a3; a4; a5; a6; a7; a8])
    with (None :: map Some [a1; a2; a3; a4; a5; a6; a7] ++ [Some a8]).
  remember (map Some [a1; a2; a3; a4; a5; a6; a7] ++ [Some a8]) as tail eqn:Htail.
  rewrite ask_each_cons.
  destruct (ask_step None (fun q => qs <- ask_each tail ;; ret (q :: qs))
              w0 name description sp Hc Hs0) as (q1 & req & E);
    [cbn; lia|].
  rewrite E; clear E. subst tail.
  set (w1 := with_history (history w0 ++ answer_turn None ++ [assistant q1]) (with_call req w0)).
  assert (Hs1 : started w1 name description sp) by exact Hs0.
  destruct (ask_rounds name description sp [a1; a2; a3; a4; a5; a6; a7] w1 Hc Hs1)
    as (qs & w2 & Hl & Hr & Hh & Hs2).
  { simpl. rewrite Ha, Ha0, Ha1, Ha2, Ha3, Ha4, Ha5. reflexivity. }
  { unfold w1. rewrite history_with_history. cbn. lia. }
  destruct qs as [|q2 [|q3 [|q4 [|q5 [|q6 [|q7 [|q8 [|]]]]]]]]; try discriminate Hl.
  assert (Hb2 : 8 <= asked (history w2)).
  { rewrite Hh. unfold w1. rewrite history_with_history. cbn. lia. }
  exists [q1; q2; q3; q4; q5; q6; q7; q8].
  assert (Hlast : ask_each [Some a8] w2
                  = (Returned [None], with_history (history w2 ++ [user a8]) w2)).
  { rewrite ask_each_cons.
    rewrite (bind_returned _ _ _ _ _ (ask_next_question_done (Some a8) w2 Hb2)).
    rewrite (answer_turn_some a8 Ha6). reflexivity. }
  unfold bind. rewrite ask_each_app, Hr, Hlast. simpl fst. simpl snd.
  rewrite history_with_history, Hh. unfold w1. rewrite history_with_history.
  repeat split.
Qed.

(** ** The tolerant decode *)

Lemma split_from_not_nil (sep : string) (s : string) (skip : nat) (cur : string) :
  split_from sep skip cur s <> [].
Proof.
  revert skip cur; induction s as [|c s IH]; intros skip cur; cbn [split_from].
  - discriminate.
  - destruct skip as [|k]; [|apply IH].
    destruct (String.prefix sep (String c s)); [discriminate | apply IH].
Qed.

(** A text that begins with the separator splits into two segments at
    least, so [split(...)[1]] is always there. *)
Lemma split_second (s sep : string) :
  startswith s sep = true ->
  s <> EmptyString ->
  nth_error (split s sep) 1 = Some (nth 1 (split s sep) EmptyString).
Proof.
  intros Hp Hs. unfold split. destruct s as [|c s]; [congruence|].
  unfold startswith in Hp. cbn [split_from]. rewrite Hp.
  destruct (split_from sep (String.length sep - 1) EmptyString s) eqn:E.
  - exfalso. exact (split_from_not_nil _ _ _ _ E).
  - reflexivity.
Qed.

Lemma remove_code_block_candidate (t : string) :
  remove_code_block (strip t) = Returned (candidate t).
Proof.
  unfold remove_code_block, candidate.
  destruct (startswith (strip t) fence) eqn:E; [|reflexivity].
  rewrite (split_second (strip t) fence E).
  - reflexivity.
  - intros H. rewrite H in E. discriminate E.
Qed.

(** ** Extraction *)

(** One call of [extract_requirements], outcome by outcome. *)
Lemma extract_requirements_run (w : World) (sp : string) :
  system_prompt (gatherer w) = Some sp ->
  let req := extraction_request (self_model (gatherer w)) sp (history w) in
  let w1 := with_call req w in
  extract_requirements w =
    match client (api_calls w) req with
    | ApiRaises e => (Raised (ApiFailure e), w1)
    | ApiReturns resp =>
        match first_text resp with
        | Raised e => (Raised e, w1)
        | Returned t =>
            match json_loads (candidate t) with
            | Loaded v => (Returned v, w1)
            | Malformed e =>
                (Returned empty_requirements,
                 with_output [("Error parsing requirements JSON: " ++ e)%string;
                              ("Raw response: " ++ candidate t)%string] w1)
            | TooManyDigits e => (Raised (ValueError e), w1)
            | TooDeep => (Raised RecursionError, w1)
            end
        end
    end.
Proof.
  intros Hsp req w1. subst w1 req. unfold extract_requirements, extraction_request.
  destruct w as [[m h pn pd spo] db0 c o]; simpl in Hsp; subst spo.
  unfold bind, get_history, attr, messages_create, lift, with_call, history; simpl.
  destruct (client c _) as [resp|e]; [|reflexivity].
  destruct (first_text resp) as [t|e]; [|reflexivity].
  rewrite remove_code_block_candidate.
  unfold try_except_JSONDecodeError, bind, lift, loads, print, ret, with_output; simpl.
  destruct (json_loads (candidate t)) as [v|e|e|]; simpl; try reflexivity.
  rewrite <- app_assoc. reflexivity.
Qed.


(** C4. For the fenced reply of the example the text handed to the parser
    is the JSON text between the fences, and [extract_requirements] returns
    the value that text stands for. *)
Theorem extraction_of_fenced_reply (w : World) (sp : string) (resp : Response) :
  system_prompt (gatherer w) = Some sp ->
  client (api_calls w) (extraction_request (self_model (gatherer w)) sp (history w))
  = ApiReturns resp ->
  first_text resp = Returned fenced_reply ->
  json_loads plain_json = Loaded one_functional ->
  candidate fenced_reply = plain_json
  /\ result extract_requirements w = Returned one_functional.
Proof.
  intros Hsp Hc Ht Hj.
  assert (Hcand : candidate fenced_reply = plain_json) by (vm_compute; reflexivity).
  split; [exact Hcand|]. unfold result.
  rewrite (extract_requirements_run w sp Hsp), Hc, Ht, Hcand, Hj. reflexivity.
Qed.

(** C5, as the code has it. On a reply that fails to parse the result has
    the three category keys, each with an empty list; on a reply that
    parses the result is the decoded value as it is, whatever its keys. *)
Theorem extraction_result_keys (w : World) (sp : string) (resp : Response) (t : string) :
  system_prompt (gatherer w) = Some sp ->
  client (api_calls w) (extraction_request (self_model (gatherer w)) sp (history w))
  = ApiReturns resp ->
  first_text resp = Returned t ->
  (forall e, json_loads (candidate t) = Malformed e ->
             result extract_requirements w = Returned empty_requirements
             /\ requirements_shaped empty_requirements = true)
  /\ (forall v, json_loads (candidate t) = Loaded v ->
                result extract_requirements w = Returned v).
Proof.
  intros Hsp Hc Ht. unfold result.
  rewrite (extract_requirements_run w sp Hsp), Hc, Ht.
  split; [intros e He | intros v Hv]; [rewrite He | rewrite Hv]; [split|]; reflexivity.
Qed.

(** C9. A failure of the client during [ask_next_question] or
    [extract_requirements] reaches the caller as it was raised, after that
    one call and no other; the extraction prints nothing and does not fall
    back to the empty structure. *)
Theorem client_failure_propagates (w : World) (n d sp : string) (e : APIError) :
  started w n d sp ->
  (forall r,
      asked (history w) < 8 ->
      client (api_calls w)
             (question_request (self_model (gatherer w)) sp n d (history w ++ answer_turn r))
      = ApiRaises e ->
      result (ask_next_question r) w = Raised (ApiFailure e)
      /\ api_calls (after (ask_next_question r) w)
         = api_calls w ++ [question_request (self_model (gatherer w)) sp n d
                             (history w ++ answer_turn r)])
  /\ (client (api_calls w) (extraction_request (self_model (gatherer w)) sp (history w))
      = ApiRaises e ->
      result extract_requirements w = Raised (ApiFailure e)
      /\ api_calls (after extract_requirements w)
         = api_calls w ++ [extraction_request (self_model (gatherer w)) sp (history w)]
      /\ stdout (after extract_requirements w) = stdout w).
Proof.
  intros Hs; split.
  - intros r Hb Hc. unfold result, after.
    rewrite (ask_next_question_run r w n d sp Hs Hb), Hc. split; reflexivity.
  - intros Hc. unfold result, after.
    rewrite (extract_requirements_run w sp (proj2 (proj2 Hs))), Hc. repeat split.
Qed.

(** ** Generation *)

Lemma print_all_run (lines : list string) (w : World) :
  print_all lines w = (Returned tt, with_output lines w).
Proof.
  revert w; induction lines as [|l lines IH]; intros w; simpl.
  - unfold ret, with_output. rewrite app_nil_r. destruct w; reflexivity.
  - unfold bind, print. rewrite IH. unfold with_output; simpl.
    rewrite <- app_assoc. reflexivity.
Qed.

(** One call of a design method, outcome by outcome. *)
Lemma generate_design_run (k : DesignKind) (p p' : Project.t) (w : World) :
  get_project_row (db w) (Project.id p) = Some p' ->
  generate_design k p w =
    match project_requirements (db w) p' with
    | [] => (Raised (ValueError (no_requirements k)), w)
    | r :: rs =>
        let req := design_request k p' (r :: rs) in
        let w1 := with_call req (with_output (announcement k) w) in
        match client (api_calls w) req with
        | ApiRaises e => (Raised (ApiFailure e), w1)
        | ApiReturns resp =>
            match first_text resp with
            | Raised e => (Raised e, w1)
            | Returned t =>
                (Returned t,
                 with_artifact {| DesignArtifact.project_id := Project.id p';
                                  DesignArtifact.artifact_type := design_artifact_type k;
                                  DesignArtifact.content := t |} w1)
            end
        end
    end.
Proof.
  intros Hp. unfold generate_design.
  unfold bind at 1. unfold get_project at 1. rewrite Hp.
  unfold bind at 1. unfold requirements_of.
  destruct (project_requirements (db w) p') as [|r rs]; [reflexivity|].
  unfold bind at 1. rewrite print_all_run.
  unfold bind, messages_create, lift, add_design_artifact, design_request, with_call,
    with_artifact, with_output, ret; simpl.
  destruct (client (api_calls w) _) as [resp|e]; [|reflexivity].
  destruct (first_text resp) as [t|e]; reflexivity.
Qed.

(** Rendering stories raises no [JSONDecodeError]. *)
Lemma format_story_raises (story : PyValue) (e : Exn) :
  format_story story = Raised e -> e = AttributeError \/ e = TypeError.
Proof.
  unfold format_story. destruct story; simpl; try (intros [= <-]; left; reflexivity).
  match goal with
  | |- context [iterate ?v] => destruct v; simpl
  end; try (intros [= <-]; right; reflexivity); discriminate.
Qed.

Lemma format_stories_raises (stories : list PyValue) (e : Exn) :
  format_stories stories = Raised e -> e = AttributeError \/ e = TypeError.
Proof.
  induction stories as [|story rest IH]; simpl; [discriminate|].
  destruct (format_story story) eqn:E; simpl.
  - destruct (format_stories rest); simpl; [discriminate|].
    intros [= <-]. apply IH. reflexivity.
  - intros [= <-]. exact (format_story_raises _ _ E).
Qed.

Lemma format_stories_for_display_raises (v : PyValue) (e : Exn) :
  _format_stories_for_display v = Raised e -> e = AttributeError \/ e = TypeError.
Proof.
  unfold _format_stories_for_display.
  destruct (iterate v) as [stories|e'] eqn:Ei; simpl.
  - destruct (format_stories stories) eqn:E; simpl; [discriminate|].
    intros [= <-]. exact (format_stories_raises _ _ E).
  - intros [= <-]. destruct v; simpl in Ei; try discriminate;
      injection Ei as <-; right; reflexivity.
Qed.

(** One call of [generate_user_stories], outcome by outcome. *)
Lemma generate_user_stories_run (p p' : Project.t) (w : World) :
  get_project_row (db w) (Project.id p) = Some p' ->
  generate_user_stories p w =
    match project_requirements (db w) p' with
    | [] => (Raised (ValueError no_requirements_for_stories), w)
    | r :: rs =>
        let req := user_stories_request p' (r :: rs) in
        let w1 := with_call req w in
        match client (api_calls w) req with
        | ApiRaises e => (Raised (ApiFailure e), w1)
        | ApiReturns resp =>
            match first_text resp with
            | Raised e => (Raised e, w1)
            | Returned t =>
                match json_loads (candidate t) with
                | Malformed e =>
                    (Returned (PyList []),
                     with_output [("Error parsing user stories JSON: " ++ e)%string;
                                  ("Raw response: " ++ candidate t)%string] w1)
                | Loaded v =>
                    match _format_stories_for_display v with
                    | Raised e => (Raised e, w1)
                    | Returned formatted =>
                        (Returned v,
                         with_artifact {| DesignArtifact.project_id := Project.id p';
                                          DesignArtifact.artifact_type := "user_stories";
                                          DesignArtifact.content := formatted |} w1)
                    end
                | TooManyDigits e => (Raised (ValueError e), w1)
                | TooDeep => (Raised RecursionError, w1)
                end
            end
        end
    end.
Proof.
  intros Hp. unfold generate_user_stories.
  unfold bind at 1. unfold get_project at 1. rewrite Hp.
  unfold bind at 1. unfold requirements_of.
  destruct (project_requirements (db w) p') as [|r rs]; [reflexivity|].
  unfold bind at 1. unfold messages_create, user_stories_request, with_call; simpl.
  destruct (client (api_calls w) _) as [resp|e]; [|reflexivity].
  unfold bind at 1. unfold lift at 1.
  destruct (first_text resp) as [t|e]; [|reflexivity].
  unfold bind at 1. unfold lift at 1. rewrite remove_code_block_candidate.
  unfold try_except_JSONDecodeError, bind, lift, loads, print, ret, add_design_artifact,
    with_output, with_artifact; simpl.
  destruct (json_loads (candidate t)) as [v|e|e|]; simpl; try reflexivity.
  - destruct (_format_stories_for_display v) as [formatted|e] eqn:E; simpl; [reflexivity|].
    destruct (format_stories_for_display_raises v e E) as [-> | ->]; reflexivity.
  - rewrite <- app_assoc. reflexivity.
Qed.


(** C6. For a project without requirement records every generation method
    fails with its [ValueError] before anything else happens, so the client
    is not called; with at least one record the method calls the client
    exactly once. *)
Theorem generation_needs_requirements (p p' : Project.t) (w : World) :
  get_project_row (db w) (Project.id p) = Some p' ->
  (project_requirements (db w) p' = [] ->
   (forall k, result (generate_design k p) w = Raised (ValueError (no_requirements k))
              /\ after (generate_design k p) w = w)
   /\ result (generate_user_stories p) w = Raised (ValueError no_requirements_for_stories)
   /\ after (generate_user_stories p) w = w)
  /\ (project_requirements (db w) p' <> [] ->
      (forall k, api_calls (after (generate_design k p) w)
                 = api_calls w ++ [design_request k p' (project_requirements (db w) p')])
      /\ api_calls (after (generate_user_stories p) w)
         = api_calls w ++ [user_stories_request p' (project_requirements (db w) p')]).
Proof.
  intros Hp. split.
  - intros Hr. unfold result, after. split; [intros k|].
    + rewrite (generate_design_run k p p' w Hp), Hr. split; reflexivity.
    + rewrite (generate_user_stories_run p p' w Hp), Hr. split; reflexivity.
  - intros Hr. unfold after. split; [intros k|].
    + rewrite (generate_design_run k p p' w Hp).
      destruct (project_requirements (db w) p') as [|r rs]; [congruence|].
      cbv zeta. destruct (client _ _) as [resp|e]; [destruct (first_text resp)|]; reflexivity.
    + rewrite (generate_user_stories_run p p' w Hp).
      destruct (project_requirements (db w) p') as [|r rs]; [congruence|].
      cbv zeta. destruct (client _ _) as [resp|e]; [|reflexivity].
      destruct (first_text resp) as [t|e]; [|reflexivity].
      destruct (json_loads (candidate t)) as [v|e|e|]; try reflexivity.
      destruct (_format_stories_for_display v); reflexivity.
Qed.


(** X20. A reply that parses to a value the rendering cannot walk through is not
    a decode failure: the exception of the rendering leaves the method, and
    nothing is stored. *)
Lemma user_stories_rendering_failure (p p' : Project.t) (w : World)
      (resp : Response) (t : string) (v : PyValue) (e : Exn) :
  get_project_row (db w) (Project.id p) = Some p' ->
  project_requirements (db w) p' <> [] ->
  client (api_calls w) (user_stories_request p' (project_requirements (db w) p'))
  = ApiReturns resp ->
  first_text resp = Returned t ->
  json_loads (candidate t) = Loaded v ->
  _format_stories_for_display v = Raised e ->
  result (generate_user_stories p) w = Raised e
  /\ db (after (generate_user_stories p) w) = db w.
Proof.
  intros Hp Hr Hc Ht Hj Hf. unfold result, after.
  rewrite (generate_user_stories_run p p' w Hp).
  destruct (project_requirements (db w) p') as [|r rs]; [congruence|].
  cbv zeta. rewrite Hc, Ht, Hj, Hf. split; reflexivity.
Qed.

Lemma rendering_needs_stories (z : Z) :
  _format_stories_for_display (PyInt z) = Raised TypeError
  /\ _format_stories_for_display (PyList [PyInt z]) = Raised AttributeError.
Proof. split; reflexivity. Qed.

(** C8, as the code has it. A generation method returns what it generated
    and stores it itself: before it returns it has added to the database
    one artifact for the project, of the method's type and with the text
    the client returned (for user stories: the rendering of the decoded
    stories); projects and requirements are as they were. *)
Theorem generation_stores_its_artifact (p p' : Project.t) (w : World) :
  get_project_row (db w) (Project.id p) = Some p' ->
  project_requirements (db w) p' <> [] ->
  (forall k resp t,
      client (api_calls w) (design_request k p' (project_requirements (db w) p'))
      = ApiReturns resp ->
      first_text resp = Returned t ->
      result (generate_design k p) w = Returned t
      /\ db (after (generate_design k p) w)
         = add_design_artifact_row (db w)
             {| DesignArtifact.project_id := Project.id p';
                DesignArtifact.artifact_type := design_artifact_type k;
                DesignArtifact.content := t |})
  /\ (forall resp t v formatted,
         client (api_calls w) (user_stories_request p' (project_requirements (db w) p'))
         = ApiReturns resp ->
         first_text resp = Returned t ->
         json_loads (candidate t) = Loaded v ->
         _format_stories_for_display v = Returned formatted ->
         result (generate_user_stories p) w = Returned v
         /\ db (after (generate_user_stories p) w)
            = add_design_artifact_row (db w)
                {| DesignArtifact.project_id := Project.id p';
                   DesignArtifact.artifact_type := "user_stories";
                   DesignArtifact.content := formatted |}).
Proof.
  intros Hp Hr. split.
  - intros k resp t Hc Ht. unfold result, after.
    rewrite (generate_design_run k p p' w Hp).
    destruct (project_requirements (db w) p') as [|r rs]; [congruence|].
    cbv zeta. rewrite Hc, Ht. split; reflexivity.
  - intros resp t v formatted Hc Ht Hj Hf. unfold result, after.
    rewrite (generate_user_stories_run p p' w Hp).
    destruct (project_requirements (db w) p') as [|r rs]; [congruence|].
    cbv zeta. rewrite Hc, Ht, Hj, Hf. split; reflexivity.
Qed.

(** * Further properties *)

(** ** The session, whatever its state *)

(** The three ways a call of [ask_next_question] can end. *)
Lemma ask_next_question_cases (r : option string) (w : World) :
  (8 <= asked (history w)
   /\ ask_next_question r w
      = (Returned None, with_history (history w ++ answer_turn r) w))
  \/ (asked (history w) < 8
      /\ exists e w',
           ask_next_question r w = (Raised e, w')
           /\ history w' = history w ++ answer_turn r
           /\ (api_calls w' = api_calls w
               \/ exists req, api_calls w' = api_calls w ++ [req]))
  \/ (asked (history w) < 8
      /\ exists q req w',
           ask_next_question r w = (Returned (Some q), w')
           /\ history w' = (history w ++ answer_turn r) ++ [assistant q]
           /\ api_calls w' = api_calls w ++ [req]).
Proof.
  destruct (le_lt_dec 8 (asked (history w))) as [Hb|Hb].
  - left. split; [exact Hb | apply ask_next_question_done; exact Hb].
  - right. unfold ask_next_question.
    rewrite (bind_returned _ _ _ _ _ (append_answer r w)).
    set (h := history w ++ answer_turn r).
    assert (Hh : asked h < 8) by (unfold h; rewrite asked_with_answer; exact Hb).
    destruct w as [[m h0 pn pd spo] db0 c o].
    unfold bind, get_history, with_history, set_gatherer, attr, messages_create,
      lift, ret, history_append, history in *; simpl in *.
    destruct (Nat.ltb_spec 8 (asked h + 1)); [lia|].
    destruct (asked h + 1 =? 1); simpl.
    + destruct pn as [n|]; simpl;
        [|left; split; [exact Hb|]; do 2 eexists; repeat split; left; reflexivity].
      destruct pd as [d|]; simpl;
        [|left; split; [exact Hb|]; do 2 eexists; repeat split; left; reflexivity].
      destruct spo as [sp|]; simpl;
        [|left; split; [exact Hb|]; do 2 eexists; repeat split; left; reflexivity].
      destruct (client c _) as [resp|e]; simpl;
        [|left; split; [exact Hb|]; do 2 eexists; repeat split; right; eexists; reflexivity].
      destruct (first_text resp) as [q|e]; simpl;
        [|left; split; [exact Hb|]; do 2 eexists; repeat split; right; eexists; reflexivity].
      right. split; [exact Hb|]. do 3 eexists. repeat split.
    + destruct spo as [sp|]; simpl;
        [|left; split; [exact Hb|]; do 2 eexists; repeat split; left; reflexivity].
      destruct (client c _) as [resp|e]; simpl;
        [|left; split; [exact Hb|]; do 2 eexists; repeat split; right; eexists; reflexivity].
      destruct (first_text resp) as [q|e]; simpl;
        [|left; split; [exact Hb|]; do 2 eexists; repeat split; right; eexists; reflexivity].
      right. split; [exact Hb|]. do 3 eexists. repeat split.
Qed.

(** A call never takes the number of asker turns past eight. *)
Lemma ask_next_question_keeps_bound (r : option string) (w : World) :
  asked (history w) <= 8 -> asked (history (after (ask_next_question r) w)) <= 8.
Proof.
  intros Hb. unfold after.
  destruct (ask_next_question_cases r w)
    as [(_ & E) | [(Hlt & e & w' & E & Hh & _) | (Hlt & q & req & w' & E & Hh & _)]];
    rewrite E; simpl.
  - rewrite history_with_history, asked_with_answer. exact Hb.
  - rewrite Hh, asked_with_answer. exact Hb.
  - rewrite Hh, asked_app, asked_with_answer. cbn. lia.
Qed.

Lemma ask_each_keeps_bound (rs : list (option string)) (w : World) :
  asked (history w) <= 8 -> asked (history (after (ask_each rs) w)) <= 8.
Proof.
  revert w; induction rs as [|r rs IH]; intros w Hb; [exact Hb|].
  pose proof (ask_next_question_keeps_bound r w Hb) as H1.
  unfold after in *. rewrite ask_each_cons. unfold bind at 1.
  destruct (ask_next_question r w) as [[q|e] w1]; simpl in *; [|exact H1].
  specialize (IH w1 H1). unfold bind.
  destruct (ask_each rs w1) as [[qs|e] w2]; simpl in *; exact IH.
Qed.

(** X1. Whatever the client does and whatever a call brings, a call made
    with at most eight asker turns in the transcript leaves at most eight;
    so a session, which starts with none, never holds more than eight. *)
Theorem session_never_exceeds_eight_questions :
  (forall r w,
      asked (history w) <= 8 -> asked (history (after (ask_next_question r) w)) <= 8)
  /\ (forall name description rs w,
         asked (history (after (session name description rs) w)) <= 8).
Proof.
  split; [exact ask_next_question_keeps_bound|].
  intros name description rs w. unfold after, session, bind, start_session.
  apply (ask_each_keeps_bound rs). cbn. lia.
Qed.

(** X2. What a returned value says about the call: a question is returned
    only below the bound, after one call to the client, and it is then the
    last turn of the transcript; [None] is returned only at the bound, and
    then the client was not called. *)
Theorem ask_next_question_returns (r : option string) (w : World) :
  (forall q,
      result (ask_next_question r) w = Returned (Some q) ->
      asked (history w) < 8
      /\ history (after (ask_next_question r) w)
         = history w ++ answer_turn r ++ [assistant q]
      /\ exists req, api_calls (after (ask_next_question r) w) = api_calls w ++ [req])
  /\ (result (ask_next_question r) w = Returned None ->
      8 <= asked (history w)
      /\ history (after (ask_next_question r) w) = history w ++ answer_turn r
      /\ api_calls (after (ask_next_question r) w) = api_calls w).
Proof.
  unfold result, after.
  destruct (ask_next_question_cases r w)
    as [(Hb & E) | [(Hlt & e & w' & E & Hh & _) | (Hlt & q' & req & w' & E & Hh & Hc)]];
    rewrite E; simpl; split.
  - intros q [=].
  - intros _. split; [exact Hb|]. split; [apply history_with_history | reflexivity].
  - intros q [=].
  - intros [=].
  - intros q [= <-]. rewrite Hh, <- app_assoc.
    split; [exact Hlt|]. split; [reflexivity|]. exists req. exact Hc.
  - intros [=].
Qed.

(** The answer is in the transcript however the call ends. *)
Lemma ask_next_question_records_answer (r : option string) (w : World) :
  exists suffix,
    history (after (ask_next_question r) w) = history w ++ answer_turn r ++ suffix.
Proof.
  unfold after.
  destruct (ask_next_question_cases r w)
    as [(Hb & E) | [(Hlt & e & w' & E & Hh & _) | (Hlt & q' & req & w' & E & Hh & Hc)]];
    rewrite E; simpl.
  - exists []. rewrite app_nil_r. apply history_with_history.
  - exists []. rewrite app_nil_r. exact Hh.
  - exists [assistant q']. rewrite Hh, <- app_assoc. reflexivity.
Qed.

(** X3. When the client fails, the answer brought by the call stays in the
    transcript; calling again with the same answer puts it there twice. *)
Theorem failed_call_keeps_the_answer (r : string) (w : World) (n d sp : string)
        (e : APIError) :
  started w n d sp ->
  asked (history w) < 8 ->
  nonempty r = true ->
  client (api_calls w)
         (question_request (self_model (gatherer w)) sp n d (history w ++ [user r]))
  = ApiRaises e ->
  history (after (ask_next_question (Some r)) w) = history w ++ [user r]
  /\ exists suffix,
       history (after (ask_next_question (Some r))
                      (after (ask_next_question (Some r)) w))
       = history w ++ [user r; user r] ++ suffix.
Proof.
  intros Hs Hb Hr Hc.
  assert (H1 : history (after (ask_next_question (Some r)) w) = history w ++ [user r]).
  { unfold after. rewrite (ask_next_question_run (Some r) w n d sp Hs Hb).
    rewrite (answer_turn_some r Hr), Hc. reflexivity. }
  split; [exact H1|].
  destruct (ask_next_question_records_answer (Some r) (after (ask_next_question (Some r)) w))
    as (suffix & E).
  exists suffix. rewrite E, H1, (answer_turn_some r Hr), <- app_assoc. reflexivity.
Qed.


(** X5. Before [start_session] both methods end with [AttributeError] and
    do not call the client; [ask_next_question] has by then recorded the
    answer. *)
Theorem unstarted_session_raises_AttributeError (r : option string) (w : World) :
  system_prompt (gatherer w) = None ->
  asked (history w) < 8 ->
  (result (ask_next_question r) w = Raised AttributeError
   /\ api_calls (after (ask_next_question r) w) = api_calls w
   /\ history (after (ask_next_question r) w) = history w ++ answer_turn r)
  /\ extract_requirements w = (Raised AttributeError, w).
Proof.
  intros Hsp Hb. split.
  - unfold result, after, ask_next_question.
    rewrite (bind_returned _ _ _ _ _ (append_answer r w)).
    set (h := history w ++ answer_turn r).
    assert (Hh : asked h < 8) by (unfold h; rewrite asked_with_answer; exact Hb).
    destruct w as [[m h0 pn pd spo] db0 c o]; simpl in Hsp; subst spo.
    unfold bind, get_history, with_history, set_gatherer, attr, history in *; simpl in *.
    destruct (Nat.ltb_spec 8 (asked h + 1)); [lia|].
    destruct (asked h + 1 =? 1); simpl; [|repeat split].
    destruct pn; simpl; [|repeat split]. destruct pd; simpl; repeat split.
  - unfold extract_requirements.
    destruct w as [[m h0 pn pd spo] db0 c o]; simpl in Hsp; subst spo. reflexivity.
Qed.

(** X6. [start_session] discards the transcript whatever it held: the
    request that follows carries the new instruction and no earlier turn.
    The database, the console and the log of calls are not touched. *)
Theorem start_session_discards_the_transcript (name description : string) (w : World) :
  history (after (start_session name description) w) = []
  /\ db (after (start_session name description) w) = db w
  /\ api_calls (after (start_session name description) w) = api_calls w
  /\ stdout (after (start_session name description) w) = stdout w
  /\ api_calls (after (session name description [None]) w)
     = api_calls w
       ++ [{| model := self_model (gatherer w);
              max_tokens := 500;
              system := ephemeral (session_system_prompt name description);
              messages := [user (first_question_prompt name description)] |}].
Proof.
  repeat split.
  unfold after, session. unfold bind at 1. unfold start_session at 1.
  set (w0 := set_gatherer _ w).
  assert (Hs : started w0 name description (session_system_prompt name description))
    by (repeat split).
  rewrite ask_each_cons. unfold bind at 1.
  rewrite (ask_next_question_run None w0 name description _ Hs) by (cbn; lia).
  destruct (client _ _) as [resp|e]; [destruct (first_text resp)|]; reflexivity.
Qed.

(** X7. An empty answer counts as no answer; two calls without an answer
    leave two asker turns next to each other. *)
Theorem empty_answer_is_no_answer (w : World) (n d sp : string) :
  ask_next_question (Some EmptyString) w = ask_next_question None w
  /\ ((forall log req, exists b bs,
          client log req = ApiReturns {| response_content := b :: bs |}) ->
      started w n d sp ->
      asked (history w) + 2 <= 8 ->
      exists q1 q2,
        history (after (ask_each [None; Some EmptyString]) w)
        = history w ++ [assistant q1; assistant q2]).
Proof.
  split; [reflexivity|]. intros Hc Hs Hb. unfold after.
  rewrite ask_each_cons.
  destruct (ask_step None (fun q => qs <- ask_each [Some EmptyString] ;; ret (q :: qs))
              w n d sp Hc Hs ltac:(lia)) as (q1 & req1 & E1).
  rewrite E1; clear E1. simpl answer_turn.
  set (w1 := with_history _ _).
  assert (Hs1 : started w1 n d sp) by exact Hs.
  assert (Hb1 : asked (history w1) < 8).
  { unfold w1. rewrite history_with_history, !asked_app. cbn. lia. }
  unfold bind at 1. rewrite ask_each_cons.
  destruct (ask_step (Some EmptyString) (fun q => qs <- ask_each [] ;; ret (q :: qs))
              w1 n d sp Hc Hs1 Hb1) as (q2 & req2 & E2).
  rewrite E2; clear E2. exists q1, q2. simpl.
  unfold w1. rewrite history_with_history. simpl.
  rewrite history_with_history, <- app_assoc. reflexivity.
Qed.

(** ** The summary of the conversation *)

Lemma summary_lines_skip (a : string) (h1 h2 : list Message) (n : nat) :
  looks_internal a = true ->
  summary_lines n (h1 ++ user a :: h2) = summary_lines n (h1 ++ h2).
Proof.
  intros Ha. revert n; induction h1 as [|m h1 IH]; intros n; simpl.
  - unfold internal_prompt. simpl. unfold looks_internal in Ha. rewrite Ha. reflexivity.
  - destruct (internal_prompt m); [apply IH|].
    destruct (is_assistant m); [f_equal; apply IH|].
    destruct (is_user m); [f_equal; apply IH | apply IH].
Qed.

(** X8. An answer whose text begins like one of the two internal prompts
    is taken for one: wherever it stands in the transcript, the summary is
    the same as without it. *)
Theorem summary_drops_answers_that_look_internal
        (a : string) (h1 h2 : list Message) (w : World) :
  looks_internal a = true ->
  result get_conversation_summary (with_history (h1 ++ user a :: h2) w)
  = result get_conversation_summary (with_history (h1 ++ h2) w).
Proof.
  intros Ha. unfold result, get_conversation_summary, bind, get_history, ret. simpl.
  rewrite (summary_lines_skip a h1 h2 1 Ha). reflexivity.
Qed.

Lemma summary_lines_dialogue (qs answers : list string) (n : nat) :
  forallb (fun a => negb (looks_internal a)) answers = true ->
  summary_lines n (dialogue qs answers) = qa_lines n qs answers.
Proof.
  revert n answers; induction qs as [|q qs IH]; intros n [|a answers] Ha;
    try reflexivity.
  simpl in Ha. apply andb_prop in Ha as [Ha Hrest].
  apply negb_true_iff in Ha. unfold looks_internal in Ha.
  simpl. unfold internal_prompt at 1. simpl. rewrite Ha. simpl.
  rewrite (IH (n + 1) answers Hrest). reflexivity.
Qed.

(** X9. For a transcript of questions and answers in turn, no answer
    looking like an internal prompt, the summary numbers the questions
    from 1 and puts each answer under its question; the world is left as
    it was. *)
Theorem summary_of_a_dialogue (qs answers : list string) (w : World) :
  forallb (fun a => negb (looks_internal a)) answers = true ->
  get_conversation_summary (with_history (dialogue qs answers) w)
  = (Returned (join nl (qa_lines 1 qs answers)), with_history (dialogue qs answers) w).
Proof.
  intros Ha. unfold get_conversation_summary, bind, get_history, ret. simpl.
  rewrite (summary_lines_dialogue qs answers 1 Ha). reflexivity.
Qed.

(** ** The fence removal on every text *)

(** X10. The fence removal raises nothing: a text that begins with a fence
    always has a second segment. *)
Theorem remove_code_block_never_raises (text : string) :
  exists cleaned, remove_code_block text = Returned cleaned.
Proof.
  unfold remove_code_block.
  destruct (startswith text fence) eqn:E; [|eexists; reflexivity].
  rewrite (split_second text fence E).
  - eexists; reflexivity.
  - intros H. rewrite H in E. discriminate E.
Qed.

Lemma string_app_nil_r (s : string) : (s ++ EmptyString)%string = s.
Proof. induction s as [|c s IH]; simpl; [|rewrite IH]; reflexivity. Qed.

Lemma string_app_assoc (a b c : string) : ((a ++ b) ++ c)%string = (a ++ (b ++ c))%string.
Proof. induction a as [|x a IH]; simpl; [|rewrite IH]; reflexivity. Qed.

Lemma prefix_fence_no_backtick (c : ascii) (s : string) :
  (nat_of_ascii c =? 96) = false -> String.prefix fence (String c s) = false.
Proof.
  intros Hc. unfold fence. cbn [String.prefix].
  destruct (ascii_dec _ c) as [E|E]; [|reflexivity].
  subst c. discriminate Hc.
Qed.

Lemma prefix_fence_app (rest : string) : String.prefix fence (fence ++ rest) = true.
Proof. destruct rest; reflexivity. Qed.

(** A text that begins with a fence: the first segment is empty. *)
Lemma split_from_fence (rest cur : string) :
  split_from fence 0 cur (fence ++ rest) = cur :: split_from fence 0 EmptyString rest.
Proof.
  change ((fence ++ rest)%string)
    with (String (ascii_of_nat 96) (String (ascii_of_nat 96) (String (ascii_of_nat 96) rest))).
  cbn [split_from].
  change (String (ascii_of_nat 96) (String (ascii_of_nat 96) (String (ascii_of_nat 96) rest)))
    with ((fence ++ rest)%string).
  rewrite prefix_fence_app. reflexivity.
Qed.

(** Up to the first fence. *)
Lemma split_from_up_to_fence (pre rest cur : string) :
  no_backtick pre = true ->
  split_from fence 0 cur (pre ++ fence ++ rest)
  = (cur ++ pre)%string :: split_from fence 0 EmptyString rest.
Proof.
  revert cur; induction pre as [|c pre IH]; intros cur Hp.
  - rewrite string_app_nil_r. apply split_from_fence.
  - simpl in Hp. apply andb_prop in Hp as [Hc Hp]. apply negb_true_iff in Hc.
    change ((String c pre ++ fence ++ rest)%string)
      with (String c (pre ++ fence ++ rest)%string).
    cbn [split_from]. rewrite (prefix_fence_no_backtick c _ Hc).
    rewrite (IH _ Hp), string_app_assoc. reflexivity.
Qed.

(** Without a fence there is one segment. *)
Lemma split_from_without_fence (pre cur : string) :
  no_backtick pre = true ->
  split_from fence 0 cur pre = [(cur ++ pre)%string].
Proof.
  revert cur; induction pre as [|c pre IH]; intros cur Hp.
  - rewrite string_app_nil_r. reflexivity.
  - simpl in Hp. apply andb_prop in Hp as [Hc Hp]. apply negb_true_iff in Hc.
    cbn [split_from]. rewrite (prefix_fence_no_backtick c _ Hc).
    rewrite (IH _ Hp), string_app_assoc. reflexivity.
Qed.

(** X11. From a text made of a fence, a body without backticks and a
    closing fence, the fence removal keeps the body, without a leading
    [json] and trimmed; what follows the closing fence is ignored, and so
    is the absence of a closing fence. *)
Theorem fenced_body_is_extracted (body rest : string) :
  no_backtick body = true ->
  remove_code_block (fence ++ body ++ fence ++ rest)
  = Returned (strip (if startswith body "json" then slice_from 4 body else body))
  /\ remove_code_block (fence ++ body)
     = Returned (strip (if startswith body "json" then slice_from 4 body else body)).
Proof.
  intros Hb. unfold remove_code_block, split, startswith. split.
  - rewrite prefix_fence_app, split_from_fence.
    rewrite (split_from_up_to_fence body rest EmptyString Hb). reflexivity.
  - rewrite prefix_fence_app, split_from_fence.
    rewrite (split_from_without_fence body EmptyString Hb). reflexivity.
Qed.

(** ** What the extraction leaves alone *)

(** X12. [extract_requirements] reads the session and writes nothing to
    it: however it ends, the gatherer (its transcript with it) and the
    database are as before, and the client was called once at most. *)
Theorem extraction_leaves_the_session_alone (w : World) :
  gatherer (after extract_requirements w) = gatherer w
  /\ db (after extract_requirements w) = db w
  /\ (api_calls (after extract_requirements w) = api_calls w
      \/ exists req, api_calls (after extract_requirements w) = api_calls w ++ [req]).
Proof.
  unfold after.
  destruct (system_prompt (gatherer w)) as [sp|] eqn:Hsp.
  - rewrite (extract_requirements_run w sp Hsp).
    destruct (client _ _) as [resp|e];
      [destruct (first_text resp) as [t|e];
       [destruct (json_loads (candidate t))|]|];
      (repeat split; right; eexists; reflexivity).
  - unfold extract_requirements.
    destruct w as [[m h0 pn pd spo] db0 c o]; simpl in Hsp; subst spo.
    repeat split. left. reflexivity.
Qed.

(** ** The rendering of requirements *)

Lemma filter_filter_implied {A} (f g : A -> bool) (l : list A) :
  (forall x, f x = true -> g x = true) -> filter f (filter g l) = filter f l.
Proof.
  intros H. induction l as [|x l IH]; simpl; [reflexivity|].
  destruct (g x) eqn:Eg; simpl.
  - rewrite IH. reflexivity.
  - destruct (f x) eqn:Ef; [|exact IH]. rewrite (H x Ef) in Eg. discriminate.
Qed.

Lemma filter_filter_disjoint {A} (f g : A -> bool) (l : list A) :
  (forall x, g x = true -> f x = false) -> filter f (filter g l) = [].
Proof.
  intros H. induction l as [|x l IH]; simpl; [reflexivity|].
  destruct (g x) eqn:Eg; simpl; [|exact IH]. rewrite (H x Eg). exact IH.
Qed.

Lemma filter_none {A} (f g : A -> bool) (l : list A) :
  (forall x, f x = true -> g x = true) ->
  forallb (fun x => negb (g x)) l = true -> filter f l = [].
Proof.
  intros H. induction l as [|x l IH]; simpl; [reflexivity|].
  intros Hl. apply andb_prop in Hl as [Hx Hl]. apply negb_true_iff in Hx.
  destruct (f x) eqn:Ef; [|exact (IH Hl)]. rewrite (H x Ef) in Hx. discriminate.
Qed.

Lemma in_category_known (c : string) (r : Requirement.t) :
  c = "functional" \/ c = "non_functional" \/ c = "constraint" ->
  in_category c r = true -> known_category r = true.
Proof.
  unfold known_category. intros [-> | [-> | ->]] H; rewrite H;
    rewrite ?orb_true_r; reflexivity.
Qed.

Lemma in_category_disjoint (c c' : string) (r : Requirement.t) :
  String.eqb c' c = false -> in_category c r = true -> in_category c' r = false.
Proof.
  unfold in_category. intros Hc H. apply String.eqb_eq in H. rewrite H.
  rewrite String.eqb_sym. exact Hc.
Qed.

(** X13. Rows whose category is not one of [functional], [non_functional]
    and [constraint] are left out of the rendering; when no row has one of
    these the text is empty, however many rows there are. *)
Theorem unknown_categories_are_left_out (rs : list Requirement.t) :
  _format_requirements rs = _format_requirements (filter known_category rs)
  /\ (forallb (fun r => negb (known_category r)) rs = true ->
      _format_requirements rs = EmptyString).
Proof.
  unfold _format_requirements. split.
  - rewrite !filter_filter_implied; [reflexivity| | |];
      intros r; apply in_category_known; auto.
  - intros H.
    rewrite (filter_none (in_category "functional") known_category rs
               (fun r => in_category_known _ r (or_introl eq_refl)) H).
    rewrite (filter_none (in_category "non_functional") known_category rs
               (fun r => in_category_known _ r (or_intror (or_introl eq_refl))) H).
    rewrite (filter_none (in_category "constraint") known_category rs
               (fun r => in_category_known _ r (or_intror (or_intror eq_refl))) H).
    reflexivity.
Qed.

(** X14. The rendering depends on the rows of each category in their
    order, not on how the categories are mixed in the table: it is the
    rendering of the functional rows followed by the non-functional ones
    and the constraints. *)
Theorem rendering_groups_by_category (rs : list Requirement.t) :
  _format_requirements rs
  = _format_requirements (filter (in_category "functional") rs
                          ++ filter (in_category "non_functional") rs
                          ++ filter (in_category "constraint") rs).
Proof.
  unfold _format_requirements. rewrite !filter_app.
  rewrite !(filter_filter_implied _ _ rs (fun x H => H)).
  rewrite !filter_filter_disjoint, ?app_nil_r;
    try (intros r; apply in_category_disjoint; reflexivity).
  reflexivity.
Qed.

(** ** Generation, failures and the store *)

(** X15. Without a text nothing is stored: when the client fails or its
    response has no content, a design method and [generate_user_stories]
    end with that exception and the database as it was; so does
    [generate_user_stories] when strict parsing raises, having printed its
    two lines on [JSONDecodeError] and nothing on the other exceptions. *)
Theorem no_text_no_artifact (p p' : Project.t) (w : World) :
  get_project_row (db w) (Project.id p) = Some p' ->
  project_requirements (db w) p' <> [] ->
  (forall k e,
      client (api_calls w) (design_request k p' (project_requirements (db w) p'))
      = ApiRaises e ->
      result (generate_design k p) w = Raised (ApiFailure e)
      /\ db (after (generate_design k p) w) = db w)
  /\ (forall k,
         client (api_calls w) (design_request k p' (project_requirements (db w) p'))
         = ApiReturns {| response_content := [] |} ->
         result (generate_design k p) w = Raised IndexError
         /\ db (after (generate_design k p) w) = db w)
  /\ (forall e,
         client (api_calls w) (user_stories_request p' (project_requirements (db w) p'))
         = ApiRaises e ->
         result (generate_user_stories p) w = Raised (ApiFailure e)
         /\ db (after (generate_user_stories p) w) = db w)
  /\ (client (api_calls w) (user_stories_request p' (project_requirements (db w) p'))
      = ApiReturns {| response_content := [] |} ->
      result (generate_user_stories p) w = Raised IndexError
      /\ db (after (generate_user_stories p) w) = db w)
  /\ (forall resp t,
         client (api_calls w) (user_stories_request p' (project_requirements (db w) p'))
         = ApiReturns resp ->
         first_text resp = Returned t ->
         (forall e,
             json_loads (candidate t) = Malformed e ->
             result (generate_user_stories p) w = Returned (PyList [])
             /\ db (after (generate_user_stories p) w) = db w
             /\ stdout (after (generate_user_stories p) w)
                = stdout w ++ [("Error parsing user stories JSON: " ++ e)%string;
                               ("Raw response: " ++ candidate t)%string])
         /\ (forall e,
                json_loads (candidate t) = TooManyDigits e ->
                result (generate_user_stories p) w = Raised (ValueError e)
                /\ db (after (generate_user_stories p) w) = db w
                /\ stdout (after (generate_user_stories p) w) = stdout w)
         /\ (json_loads (candidate t) = TooDeep ->
             result (generate_user_stories p) w = Raised RecursionError
             /\ db (after (generate_user_stories p) w) = db w
             /\ stdout (after (generate_user_stories p) w) = stdout w)).
Proof.
  intros Hp Hr. unfold result, after.
  repeat split; intros;
    rewrite ?(generate_design_run _ p p' w Hp), ?(generate_user_stories_run p p' w Hp);
    (destruct (project_requirements (db w) p') as [|r rs]; [congruence|]);
    cbv zeta;
    repeat match goal with
           | H : _ = _ |- _ => rewrite H
           end; reflexivity.
Qed.

(** X16. For a project that is not in the database the methods end with
    [AttributeError] at once: no call, nothing printed, nothing stored. *)
Theorem missing_project_raises_AttributeError (p : Project.t) (w : World) :
  get_project_row (db w) (Project.id p) = None ->
  (forall k, generate_design k p w = (Raised AttributeError, w))
  /\ generate_user_stories p w = (Raised AttributeError, w).
Proof.
  intros Hp. split; [intros k|];
    unfold generate_design, generate_user_stories;
    unfold bind at 1; unfold get_project at 1; rewrite Hp; reflexivity.
Qed.

(** X17. Generation only adds to the store: two runs in a row leave two
    artifacts after those that were there, the requirements are untouched,
    and the second request is what it would have been without the first
    run. *)
Theorem generation_is_append_only (p p' : Project.t) (w : World) (k1 k2 : DesignKind)
        (resp1 resp2 : Response) (t1 t2 : string) :
  get_project_row (db w) (Project.id p) = Some p' ->
  project_requirements (db w) p' <> [] ->
  client (api_calls w) (design_request k1 p' (project_requirements (db w) p'))
  = ApiReturns resp1 ->
  first_text resp1 = Returned t1 ->
  client (api_calls w ++ [design_request k1 p' (project_requirements (db w) p')])
         (design_request k2 p' (project_requirements (db w) p'))
  = ApiReturns resp2 ->
  first_text resp2 = Returned t2 ->
  design_artifacts (db (after (generate_design k2 p) (after (generate_design k1 p) w)))
  = design_artifacts (db w)
    ++ [{| DesignArtifact.project_id := Project.id p';
           DesignArtifact.artifact_type := design_artifact_type k1;
           DesignArtifact.content := t1 |};
        {| DesignArtifact.project_id := Project.id p';
           DesignArtifact.artifact_type := design_artifact_type k2;
           DesignArtifact.content := t2 |}]
  /\ requirements (db (after (generate_design k2 p) (after (generate_design k1 p) w)))
     = requirements (db w)
  /\ api_calls (after (generate_design k2 p) (after (generate_design k1 p) w))
     = api_calls w ++ [design_request k1 p' (project_requirements (db w) p');
                       design_request k2 p' (project_requirements (db w) p')].
Proof.
  intros Hp Hr Hc1 Ht1 Hc2 Ht2.
  assert (E1 : generate_design k1 p w
               = (Returned t1,
                  with_artifact {| DesignArtifact.project_id := Project.id p';
                                   DesignArtifact.artifact_type := design_artifact_type k1;
                                   DesignArtifact.content := t1 |}
                    (with_call (design_request k1 p' (project_requirements (db w) p'))
                       (with_output (announcement k1) w)))).
  { rewrite (generate_design_run k1 p p' w Hp).
    destruct (project_requirements (db w) p') as [|r rs]; [congruence|].
    cbv zeta. rewrite Hc1, Ht1. reflexivity. }
  unfold after at 2 4 6. rewrite E1. cbn [snd].
  set (w1 := with_artifact _ _).
  assert (Hp1 : get_project_row (db w1) (Project.id p) = Some p') by exact Hp.
  assert (Hr1 : project_requirements (db w1) p' = project_requirements (db w) p')
    by reflexivity.
  unfold after. rewrite (generate_design_run k2 p p' w1 Hp1), Hr1.
  destruct (project_requirements (db w) p') as [|r rs]; [congruence|].
  cbv zeta.
  change (api_calls w1) with (api_calls w ++ [design_request k1 p' (r :: rs)]).
  rewrite Hc2, Ht2. simpl. rewrite <- !app_assoc. repeat split.
Qed.

(** X18. A reply that parses to the empty array gives the same return
    value as a reply that does not parse, the empty list; but it is
    stored, as an artifact with an empty text. *)
Theorem empty_array_is_stored (p p' : Project.t) (w : World)
        (resp : Response) (t : string) :
  get_project_row (db w) (Project.id p) = Some p' ->
  project_requirements (db w) p' <> [] ->
  client (api_calls w) (user_stories_request p' (project_requirements (db w) p'))
  = ApiReturns resp ->
  first_text resp = Returned t ->
  json_loads (candidate t) = Loaded (PyList []) ->
  result (generate_user_stories p) w = Returned (PyList [])
  /\ db (after (generate_user_stories p) w)
     = add_design_artifact_row (db w)
         {| DesignArtifact.project_id := Project.id p';
            DesignArtifact.artifact_type := "user_stories";
            DesignArtifact.content := EmptyString |}.
Proof.
  intros Hp Hr Hc Ht Hj. unfold result, after.
  rewrite (generate_user_stories_run p p' w Hp).
  destruct (project_requirements (db w) p') as [|r rs]; [congruence|].
  cbv zeta. rewrite Hc, Ht, Hj. split; reflexivity.
Qed.

Lemma format_story_renderable (story : PyValue) :
  (exists lines, format_story story = Returned lines) <-> renderable story = true.
Proof.
  destruct story as [| | | | | |items]; simpl;
    try (split; [intros (l & H); discriminate H | discriminate]).
  unfold format_story, get. simpl.
  destruct (lookup "acceptance_criteria" items) as [[| | | | | |]|]; simpl;
    split; intros H; try reflexivity; try discriminate H;
    try (destruct H as (l & H); discriminate H); eexists; reflexivity.
Qed.

Lemma format_stories_renderable (stories : list PyValue) :
  (exists lines, format_stories stories = Returned lines)
  <-> forallb renderable stories = true.
Proof.
  induction stories as [|story rest IH]; simpl.
  - split; [reflexivity | intros _; eexists; reflexivity].
  - rewrite andb_true_iff, <- IH, <- format_story_renderable. split.
    + intros (l & H). destruct (format_story story) as [l1|e]; [|discriminate H].
      simpl in H. destruct (format_stories rest) as [l2|e]; [|discriminate H].
      split; eexists; reflexivity.
    + intros ((l1 & H1) & (l2 & H2)). rewrite H1, H2. eexists; reflexivity.
Qed.

(** X19. The rendering of a list of stories succeeds exactly when every
    story is a dict whose acceptance criteria, if it has any, are a list,
    a string or a dict; any other field may be missing or of any type. *)
Theorem rendering_succeeds_on_renderable_stories (stories : list PyValue) :
  (exists text, _format_stories_for_display (PyList stories) = Returned text)
  <-> forallb renderable stories = true.
Proof.
  rewrite <- format_stories_renderable. unfold _format_stories_for_display. simpl.
  split.
  - intros (text & H). destruct (format_stories stories) as [l|e]; [|discriminate H].
    eexists; reflexivity.
  - intros (l & H). rewrite H. eexists; reflexivity.
Qed.

(** ** The database *)

Lemma find_app_none {A} (f : A -> bool) (l1 l2 : list A) :
  find f l1 = None -> find f (l1 ++ l2) = find f l2.
Proof.
  induction l1 as [|x l1 IH]; simpl; [reflexivity|].
  destruct (f x); [discriminate | exact IH].
Qed.

Lemma find_app_some {A} (f : A -> bool) (l1 l2 : list A) (x : A) :
  find f l1 = Some x -> find f (l1 ++ l2) = Some x.
Proof.
  induction l1 as [|y l1 IH]; simpl; [discriminate|].
  destruct (f y); [intros H; exact H | exact IH].
Qed.

Lemma find_id_absent (i : nat) (l : list Project.t) :
  ~ In i (map Project.id l) -> find (fun q => Project.id q =? i) l = None.
Proof.
  induction l as [|q l IH]; simpl; [reflexivity|]. intros H.
  destruct (Nat.eqb_spec (Project.id q) i) as [E|E]; [exfalso; apply H; left; exact E|].
  apply IH. intros Hin. apply H. right. exact Hin.
Qed.

(** X21. A project created under a key that is not in use is found under
    that key; the other keys lead where they led, every project keeps a
    key of its own, and requirements and artifacts are untouched. *)
Theorem created_project_is_found (new_id : nat) (name description : string) (w : World) :
  ~ In new_id (map Project.id (projects (db w))) ->
  get_project_row (db (after (create_project new_id name description) w)) new_id
  = Some {| Project.id := new_id; Project.name := name; Project.description := description |}
  /\ (forall i, i <> new_id ->
        get_project_row (db (after (create_project new_id name description) w)) i
        = get_project_row (db w) i)
  /\ (primary_keys (db w) ->
      primary_keys (db (after (create_project new_id name description) w)))
  /\ requirements (db (after (create_project new_id name description) w))
     = requirements (db w)
  /\ design_artifacts (db (after (create_project new_id name description) w))
     = design_artifacts (db w).
Proof.
  intros Hfresh. unfold after, create_project, get_project_row, primary_keys. simpl.
  repeat split.
  - rewrite (find_app_none _ _ _ (find_id_absent new_id _ Hfresh)). simpl.
    rewrite Nat.eqb_refl. reflexivity.
  - intros i Hi.
    destruct (find (fun q => Project.id q =? i) (projects (db w))) as [q|] eqn:E.
    + apply (find_app_some _ _ _ _ E).
    + rewrite (find_app_none _ _ _ E). simpl.
      destruct (Nat.eqb_spec new_id i); [congruence | reflexivity].
  - intros Hk. rewrite map_app. simpl.
    apply NoDup_app; [exact Hk | repeat constructor; intros [] | ].
    intros x Hx [<- | []]. exact (Hfresh Hx).
Qed.

Lemma find_some_id (i : nat) (l : list Project.t) (p : Project.t) :
  find (fun q => Project.id q =? i) l = Some p -> Project.id p = i.
Proof.
  intros H. apply find_some in H as [_ H]. apply Nat.eqb_eq. exact H.
Qed.

Lemma find_filter_out (i : nat) (l : list Project.t) :
  find (fun q => Project.id q =? i) (filter (fun q => negb (Project.id q =? i)) l) = None.
Proof.
  induction l as [|q l IH]; simpl; [reflexivity|].
  destruct (Project.id q =? i) eqn:E; simpl; [exact IH|]. rewrite E. exact IH.
Qed.

Lemma find_filter_other (i j : nat) (l : list Project.t) :
  i <> j ->
  find (fun q => Project.id q =? j) (filter (fun q => negb (Project.id q =? i)) l)
  = find (fun q => Project.id q =? j) l.
Proof.
  intros Hij. induction l as [|q l IH]; simpl; [reflexivity|].
  destruct (Nat.eqb_spec (Project.id q) i) as [E|E]; simpl.
  - destruct (Nat.eqb_spec (Project.id q) j); [congruence | exact IH].
  - destruct (Project.id q =? j); [reflexivity | exact IH].
Qed.

(** X22. Deleting a project takes its requirements and its artifacts with
    it and leaves the other projects with theirs; afterwards the project is
    not found and generation for it ends with [AttributeError].  Deleting
    under a key that leads nowhere changes nothing and returns [False]. *)
Theorem delete_project_cascades (i : nat) (w : World) :
  (forall p,
      get_project_row (db w) i = Some p ->
      result (delete_project i) w = Returned true
      /\ get_project_row (db (after (delete_project i) w)) i = None
      /\ project_requirements (db (after (delete_project i) w)) p = []
      /\ project_design_artifacts (db (after (delete_project i) w)) p = []
      /\ (forall q, Project.id q <> i ->
            get_project_row (db (after (delete_project i) w)) (Project.id q)
            = get_project_row (db w) (Project.id q)
            /\ project_requirements (db (after (delete_project i) w)) q
               = project_requirements (db w) q
            /\ project_design_artifacts (db (after (delete_project i) w)) q
               = project_design_artifacts (db w) q)
      /\ (forall k, result (generate_design k p) (after (delete_project i) w)
                    = Raised AttributeError))
  /\ (get_project_row (db w) i = None -> delete_project i w = (Returned false, w)).
Proof.
  split.
  - intros p Hp. pose proof (find_some_id i _ p Hp) as Hi.
    assert (E : delete_project i w
                = (Returned true, set_db (delete_project_rows (db w) p) w)).
    { unfold delete_project. unfold bind at 1. unfold get_project at 1.
      rewrite Hp. reflexivity. }
    unfold result, after. rewrite E. simpl.
    assert (Hgone : get_project_row
                      (delete_project_rows (db w) p) i = None).
    { unfold get_project_row, delete_project_rows. simpl. rewrite Hi.
      apply find_filter_out. }
    unfold delete_project_rows in *. rewrite Hi in *.
    repeat split.
    + exact Hgone.
    + unfold project_requirements. simpl. rewrite Hi.
      apply filter_filter_disjoint. intros r Hr. apply negb_true_iff. exact Hr.
    + unfold project_design_artifacts. simpl. rewrite Hi.
      apply filter_filter_disjoint. intros a Ha. apply negb_true_iff. exact Ha.
    + unfold get_project_row. simpl. apply find_filter_other. congruence.
    + unfold project_requirements. simpl.
      apply filter_filter_implied. intros r Hr. apply Nat.eqb_eq in Hr.
      apply negb_true_iff. apply Nat.eqb_neq. congruence.
    + unfold project_design_artifacts. simpl.
      apply filter_filter_implied. intros a Ha. apply Nat.eqb_eq in Ha.
      apply negb_true_iff. apply Nat.eqb_neq. congruence.
    + intros k. unfold generate_design.
      unfold bind at 1. unfold get_project at 1. simpl db. rewrite Hi.
      unfold get_project_row, delete_project_rows in Hgone. simpl in Hgone.
      unfold get_project_row. simpl. rewrite Hgone. reflexivity.
  - intros Hp. unfold delete_project. unfold bind. unfold get_project at 1.
    rewrite Hp. reflexivity.
Qed.

(** X23. One requirement is enough for generation to go ahead, whatever
    its category: after [add_requirement] for a project of the database,
    the method sends the request built from the requirements with the new
    row at the end. *)
Theorem added_requirement_enables_generation
        (i : nat) (category description : string) (p' : Project.t) (k : DesignKind)
        (w : World) :
  get_project_row (db w) i = Some p' ->
  project_requirements (db (after (add_requirement i category description) w)) p'
  = project_requirements (db w) p'
    ++ [{| Requirement.project_id := i;
           Requirement.category := category;
           Requirement.description := description |}]
  /\ api_calls (after (generate_design k p')
                      (after (add_requirement i category description) w))
     = api_calls w
       ++ [design_request k p'
             (project_requirements (db w) p'
              ++ [{| Requirement.project_id := i;
                     Requirement.category := category;
                     Requirement.description := description |}])].
Proof.
  intros Hp. pose proof (find_some_id i _ p' Hp) as Hi.
  set (row := {| Requirement.project_id := i;
                 Requirement.category := category;
                 Requirement.description := description |}).
  set (w1 := after (add_requirement i category description) w).
  assert (Hr : project_requirements (db w1) p' = project_requirements (db w) p' ++ [row]).
  { unfold w1, after, add_requirement, project_requirements. simpl.
    rewrite filter_app. simpl. rewrite Hi, Nat.eqb_refl. reflexivity. }
  split; [exact Hr|].
  assert (Hp1 : get_project_row (db w1) (Project.id p') = Some p')
    by (rewrite Hi; exact Hp).
  unfold after at 1. rewrite (generate_design_run k p' p' w1 Hp1), Hr.
  destruct (project_requirements (db w) p' ++ [row]) as [|r rs] eqn:E;
    [destruct (project_requirements (db w) p'); discriminate E|].
  cbv zeta.
  destruct (client _ _) as [resp|e]; [destruct (first_text resp)|]; reflexivity.
Qed.

End Planner.


(** * The statements on concrete runs *)

Lemma ask_next_question_bound_witness :
  (result (ask_next_question (client_replying "Which platform?") (Some "One more thing"))
          (with_history (dialogue eight_answers eight_answers) shop_session)
   = Returned None
   /\ api_calls (after (ask_next_question (client_replying "Which platform?")
                                          (Some "One more thing"))
                       (with_history (dialogue eight_answers eight_answers) shop_session))
      = [])
  /\ List.length (api_calls (after (ask_next_question (client_replying "Which platform?") None)
                                   shop_session)) = 1.
Proof.
  split.
  - apply (proj1 (ask_next_question_bound (client_replying "Which platform?")
                    (Some "One more thing")
                    (with_history (dialogue eight_answers eight_answers) shop_session)
                    "Shop" "An online shop" (session_system_prompt "Shop" "An online shop"))).
    apply Nat.leb_le. vm_compute. reflexivity.
  - rewrite (proj2 (ask_next_question_bound (client_replying "Which platform?") None
                      shop_session
                      "Shop" "An online shop" (session_system_prompt "Shop" "An online shop"))).
    + reflexivity.
    + apply Nat.ltb_lt. vm_compute. reflexivity.
    + repeat split.
Defined.

Lemma completed_session_transcript_witness :
  exists qs,
    history (after (session (client_replying "Which platform?") "Shop" "An online shop"
                            (None :: map Some eight_answers)) fresh_world)
    = dialogue qs eight_answers
    /\ List.length (history (after (session (client_replying "Which platform?")
                                            "Shop" "An online shop"
                                            (None :: map Some eight_answers)) fresh_world))
       = 16.
Proof.
  destruct (completed_session_transcript (client_replying "Which platform?")
              "Shop" "An online shop" eight_answers fresh_world)
    as (qs & _ & _ & Hh & Hl & _).
  - intros log req. exists {| text := "Which platform?" |}, []. reflexivity.
  - reflexivity.
  - reflexivity.
  - exists qs. split; assumption.
Defined.


(** The second line printed on a [JSONDecodeError] carries the text that
    was handed to the strict parser: for a fenced refusal, the fenced
    segment. *)
Lemma raw_reply_is_not_reported :
  (exists e, Json.loads (candidate fenced_refusal) = Malformed e)
  /\ result (extract_requirements (client_replying fenced_refusal) Json.loads) shop_session
     = Returned empty_requirements
  /\ nth 1 (stdout (after (extract_requirements (client_replying fenced_refusal) Json.loads)
                          shop_session)) EmptyString
     = "Raw response: I cannot comply"
  /\ reported shop_session
              (after (extract_requirements (client_replying fenced_refusal) Json.loads)
                     shop_session)
              fenced_refusal = false.
Proof. split; [eexists; vm_compute; reflexivity | vm_compute; repeat split]. Qed.


Lemma extraction_of_fenced_reply_witness :
  result (extract_requirements (client_replying fenced_reply) Json.loads) shop_session
  = Returned one_functional.
Proof.
  apply (extraction_of_fenced_reply (client_replying fenced_reply) Json.loads
           shop_session (session_system_prompt "Shop" "An online shop")
           (reply fenced_reply));
    vm_compute; reflexivity.
Defined.

(** C5, refuted as stated: the reply [{}] parses, and the result is the
    empty dict, without any of the three keys. *)
Lemma extraction_may_omit_keys :
  result (extract_requirements (client_replying "{}") Json.loads) shop_session
  = Returned (PyDict [])
  /\ requirements_shaped (PyDict []) = false
  /\ maps_to_strings (PyDict []) "functional" = false.
Proof. vm_compute. repeat split. Qed.

Lemma extraction_result_keys_witness :
  result (extract_requirements (client_replying "I cannot comply") Json.loads) shop_session
  = Returned empty_requirements
  /\ result (extract_requirements (client_replying "{}") Json.loads) shop_session
     = Returned (PyDict []).
Proof.
  split.
  - apply (proj1 (extraction_result_keys (client_replying "I cannot comply") Json.loads
                    shop_session (session_system_prompt "Shop" "An online shop")
                    (reply "I cannot comply") "I cannot comply"
                    eq_refl eq_refl eq_refl) "Expecting value").
    vm_compute. reflexivity.
  - apply (proj2 (extraction_result_keys (client_replying "{}") Json.loads
                    shop_session (session_system_prompt "Shop" "An online shop")
                    (reply "{}") "{}" eq_refl eq_refl eq_refl)).
    vm_compute. reflexivity.
Defined.

Lemma client_failure_propagates_witness :
  result (ask_next_question (client_failing (RateLimitError "429")) None) shop_session
  = Raised (ApiFailure (RateLimitError "429"))
  /\ result (extract_requirements (client_failing (RateLimitError "429")) Json.loads)
            shop_session
     = Raised (ApiFailure (RateLimitError "429")).
Proof.
  split.
  - apply (proj1 (client_failure_propagates (client_failing (RateLimitError "429")) Json.loads
                    shop_session "Shop" "An online shop"
                    (session_system_prompt "Shop" "An online shop")
                    (RateLimitError "429")
                    (conj eq_refl (conj eq_refl eq_refl))) None).
    + apply Nat.ltb_lt. vm_compute. reflexivity.
    + reflexivity.
  - apply (proj2 (client_failure_propagates (client_failing (RateLimitError "429")) Json.loads
                    shop_session "Shop" "An online shop"
                    (session_system_prompt "Shop" "An online shop")
                    (RateLimitError "429")
                    (conj eq_refl (conj eq_refl eq_refl)))).
    reflexivity.
Defined.

Lemma answer_after_bound_is_recorded_witness :
  history (after (ask_each (client_replying "Which platform?")
                           (map Some ["One more thing"; "And another"]))
                 (after (session (client_replying "Which platform?") "Shop" "An online shop"
                                 (None :: map Some eight_answers)) fresh_world))
  = history (after (session (client_replying "Which platform?") "Shop" "An online shop"
                            (None :: map Some eight_answers)) fresh_world)
    ++ [user "One more thing"; user "And another"]
  /\ List.length
       (history (after (ask_each (client_replying "Which platform?")
                                 (map Some ["One more thing"; "And another"]))
                       (after (session (client_replying "Which platform?")
                                       "Shop" "An online shop"
                                       (None :: map Some eight_answers)) fresh_world)))
     = 18.
Proof.
  destruct (proj2 (answer_after_bound_is_recorded (client_replying "Which platform?")
                     (after (session (client_replying "Which platform?")
                                     "Shop" "An online shop"
                                     (None :: map Some eight_answers)) fresh_world)
                     ltac:(apply Nat.leb_le; vm_compute; reflexivity))
                  ["One more thing"; "And another"] eq_refl)
    as (_ & Hh & Hl & _).
  split; [exact Hh | rewrite Hl; vm_compute; reflexivity].
Defined.

Lemma generation_needs_requirements_witness :
  result (generate_architecture (client_replying "Three tiers") shop) (shop_world [])
  = Raised (ValueError "Cannot generate architecture: No requirements found")
  /\ api_calls (after (generate_architecture (client_replying "Three tiers") shop)
                      (shop_world []))
     = []
  /\ List.length (api_calls (after (generate_architecture (client_replying "Three tiers") shop)
                                   (shop_world [checkout])))
     = 1.
Proof.
  pose proof (generation_needs_requirements (client_replying "Three tiers") Json.loads
                sample_str sample_float_truth shop shop (shop_world []) eq_refl) as [H0 _].
  pose proof (generation_needs_requirements (client_replying "Three tiers") Json.loads
                sample_str sample_float_truth shop shop (shop_world [checkout]) eq_refl)
    as [_ H1].
  destruct (H0 eq_refl) as [Hd _]. destruct (Hd Architecture) as [Hr Ha].
  destruct (H1 ltac:(discriminate)) as [Hc _].
  split; [exact Hr|]. split.
  - unfold generate_architecture. rewrite Ha. reflexivity.
  - unfold generate_architecture. rewrite (Hc Architecture). reflexivity.
Defined.



(** C8, refuted as stated: after [generate_architecture] the database is
    not what it was; it holds the generated text as a new artifact. *)
Lemma generation_writes_to_the_store :
  result (generate_architecture (client_replying "Three tiers") shop) (shop_world [checkout])
  = Returned "Three tiers"
  /\ db (shop_world [checkout]) = shop_db [checkout]
  /\ design_artifacts (db (after (generate_architecture (client_replying "Three tiers") shop)
                                 (shop_world [checkout])))
     = [{| DesignArtifact.project_id := 1;
           DesignArtifact.artifact_type := "architecture";
           DesignArtifact.content := "Three tiers" |}]
  /\ db (after (generate_architecture (client_replying "Three tiers") shop)
               (shop_world [checkout]))
     <> db (shop_world [checkout]).
Proof.
  split; [vm_compute; reflexivity|].
  split; [reflexivity|].
  split; [vm_compute; reflexivity|].
  vm_compute. discriminate.
Qed.

Lemma generation_stores_its_artifact_witness :
  db (after (generate_design (client_replying "Three tiers") DataModel shop)
            (shop_world [checkout]))
  = add_design_artifact_row (shop_db [checkout])
      {| DesignArtifact.project_id := 1;
         DesignArtifact.artifact_type := "data_model";
         DesignArtifact.content := "Three tiers" |}.
Proof.
  apply (proj1 (generation_stores_its_artifact (client_replying "Three tiers") Json.loads
                  sample_str sample_float_truth shop shop (shop_world [checkout])
                  eq_refl ltac:(discriminate))
               DataModel (reply "Three tiers") "Three tiers" eq_refl eq_refl).
Defined.


(** * The further properties on concrete runs *)

Lemma ask_next_question_returns_witness :
  history (after (ask_next_question (client_replying "Which platform?") None) shop_session)
  = [assistant "Which platform?"]
  /\ 8 <= asked (dialogue eight_answers eight_answers).
Proof.
  split.
  - destruct (proj1 (ask_next_question_returns (client_replying "Which platform?") None
                       shop_session)
                    "Which platform?" ltac:(vm_compute; reflexivity))
      as (_ & H & _).
    exact H.
  - apply (proj2 (ask_next_question_returns (client_replying "Which platform?") None
                    (with_history (dialogue eight_answers eight_answers) shop_session))).
    vm_compute. reflexivity.
Defined.

Lemma failed_call_keeps_the_answer_witness :
  history (after (ask_next_question (client_failing (RateLimitError "429"))
                                    (Some "Web and mobile")) shop_session)
  = [user "Web and mobile"].
Proof.
  apply (failed_call_keeps_the_answer (client_failing (RateLimitError "429"))
           "Web and mobile" shop_session "Shop" "An online shop"
           (session_system_prompt "Shop" "An online shop") (RateLimitError "429")).
  - repeat split.
  - apply Nat.ltb_lt. vm_compute. reflexivity.
  - reflexivity.
  - reflexivity.
Defined.


Lemma unstarted_session_raises_AttributeError_witness :
  result (ask_next_question (client_replying "Which platform?") (Some "Web and mobile"))
         fresh_world
  = Raised AttributeError
  /\ history (after (ask_next_question (client_replying "Which platform?")
                                       (Some "Web and mobile")) fresh_world)
     = [user "Web and mobile"].
Proof.
  destruct (unstarted_session_raises_AttributeError (client_replying "Which platform?")
              Json.loads (Some "Web and mobile") fresh_world eq_refl)
    as [(Hr & _ & Hh) _].
  - apply Nat.ltb_lt. vm_compute. reflexivity.
  - split; [exact Hr | exact Hh].
Defined.

Lemma empty_answer_is_no_answer_witness :
  exists q1 q2,
    history (after (ask_each (client_replying "Which platform?") [None; Some EmptyString])
                   shop_session)
    = [assistant q1; assistant q2].
Proof.
  apply (proj2 (empty_answer_is_no_answer (client_replying "Which platform?") shop_session
                  "Shop" "An online shop" (session_system_prompt "Shop" "An online shop"))).
  - intros log req. exists {| text := "Which platform?" |}, []. reflexivity.
  - repeat split.
  - apply Nat.leb_le. vm_compute. reflexivity.
Defined.

Lemma summary_drops_answers_that_look_internal_witness :
  result get_conversation_summary
         (with_history [assistant "Which platform?";
                        user "Based on the previous answer, the web"] shop_session)
  = result get_conversation_summary
           (with_history [assistant "Which platform?"] shop_session).
Proof.
  apply (summary_drops_answers_that_look_internal
           "Based on the previous answer, the web" [assistant "Which platform?"] []
           shop_session).
  reflexivity.
Defined.

Lemma summary_of_a_dialogue_witness :
  result get_conversation_summary
         (with_history (dialogue ["Which platform?"; "Which payment?"]
                                 ["Q1: Web and mobile"; "Q2: Card and invoice"])
                       shop_session)
  = Returned (join nl ["Q1: Which platform?"; ("A: Q1: Web and mobile" ++ nl)%string;
                       "Q2: Which payment?"; ("A: Q2: Card and invoice" ++ nl)%string]).
Proof.
  unfold result.
  rewrite (summary_of_a_dialogue ["Which platform?"; "Which payment?"]
             ["Q1: Web and mobile"; "Q2: Card and invoice"] shop_session eq_refl).
  reflexivity.
Defined.

Lemma fenced_body_is_extracted_witness :
  remove_code_block (fence ++ ("json" ++ nl ++ "[1, 2]" ++ nl) ++ fence ++ " That is all.")
  = Returned "[1, 2]".
Proof.
  rewrite (proj1 (fenced_body_is_extracted ("json" ++ nl ++ "[1, 2]" ++ nl) " That is all."
                    eq_refl)).
  vm_compute. reflexivity.
Defined.

Lemma unknown_categories_are_left_out_witness :
  _format_requirements [misfiled] = EmptyString.
Proof.
  apply (proj2 (unknown_categories_are_left_out [misfiled])). reflexivity.
Defined.

Lemma no_text_no_artifact_witness :
  db (after (generate_architecture (client_failing (RateLimitError "429")) shop)
            (shop_world [checkout]))
  = shop_db [checkout]
  /\ db (after (generate_architecture client_without_content shop) (shop_world [checkout]))
     = shop_db [checkout]
  /\ db (after (generate_user_stories (client_failing (RateLimitError "429")) Json.loads
                                      sample_str sample_float_truth shop)
               (shop_world [checkout]))
     = shop_db [checkout]
  /\ result (generate_user_stories client_without_content Json.loads
                                   sample_str sample_float_truth shop)
            (shop_world [checkout])
     = Raised IndexError
  /\ db (after (generate_user_stories (client_replying "I cannot comply") Json.loads
                                      sample_str sample_float_truth shop)
               (shop_world [checkout]))
     = shop_db [checkout]
  /\ stdout (after (generate_user_stories (client_replying ("[" ++ ones 4301)) Json.loads
                                          sample_str sample_float_truth shop)
                   (shop_world [checkout]))
     = stdout (shop_world [checkout])
  /\ db (after (generate_user_stories (client_replying (repeat_string "[" 5000)) Json.loads
                                      sample_str sample_float_truth shop)
               (shop_world [checkout]))
     = shop_db [checkout].
Proof.
  pose proof (no_text_no_artifact (client_failing (RateLimitError "429")) Json.loads
                sample_str sample_float_truth shop shop (shop_world [checkout])
                eq_refl ltac:(discriminate)) as (H1 & _ & H3 & _).
  pose proof (no_text_no_artifact client_without_content Json.loads
                sample_str sample_float_truth shop shop (shop_world [checkout])
                eq_refl ltac:(discriminate)) as (_ & H2 & _ & H4 & _).
  pose proof (no_text_no_artifact (client_replying "I cannot comply") Json.loads
                sample_str sample_float_truth shop shop (shop_world [checkout])
                eq_refl ltac:(discriminate)) as (_ & _ & _ & _ & H5).
  pose proof (no_text_no_artifact (client_replying ("[" ++ ones 4301)) Json.loads
                sample_str sample_float_truth shop shop (shop_world [checkout])
                eq_refl ltac:(discriminate)) as (_ & _ & _ & _ & H6).
  pose proof (no_text_no_artifact (client_replying (repeat_string "[" 5000)) Json.loads
                sample_str sample_float_truth shop shop (shop_world [checkout])
                eq_refl ltac:(discriminate)) as (_ & _ & _ & _ & H7).
  split; [|split; [|split; [|split; [|split; [|split]]]]].
  - exact (proj2 (H1 Architecture (RateLimitError "429") eq_refl)).
  - exact (proj2 (H2 Architecture eq_refl)).
  - exact (proj2 (H3 (RateLimitError "429") eq_refl)).
  - exact (proj1 (H4 eq_refl)).
  - destruct (H5 (reply "I cannot comply") "I cannot comply" eq_refl eq_refl) as (Hm & _).
    destruct (Hm "Expecting value") as (_ & Hdb & _); [vm_compute; reflexivity|].
    exact Hdb.
  - destruct (H6 (reply ("[" ++ ones 4301)%string) ("[" ++ ones 4301)%string
                 eq_refl eq_refl) as (_ & Hd & _).
    destruct (Hd (Json.digit_limit_message 4300 4301)) as (_ & _ & Hout);
      [vm_compute; reflexivity|].
    exact Hout.
  - destruct (H7 (reply (repeat_string "[" 5000)) (repeat_string "[" 5000) eq_refl eq_refl)
      as (_ & _ & Hd).
    destruct Hd as (_ & Hdb & _); [vm_compute; reflexivity|].
    exact Hdb.
Defined.

Lemma missing_project_raises_AttributeError_witness :
  generate_architecture (client_replying "Three tiers") shop fresh_world
  = (Raised AttributeError, fresh_world).
Proof.
  apply (proj1 (missing_project_raises_AttributeError (client_replying "Three tiers")
                  Json.loads sample_str sample_float_truth shop fresh_world eq_refl)).
Defined.

Lemma generation_is_append_only_witness :
  design_artifacts
    (db (after (generate_design (client_replying "Three tiers") DataModel shop)
               (after (generate_design (client_replying "Three tiers") Architecture shop)
                      (shop_world [checkout]))))
  = [{| DesignArtifact.project_id := 1;
        DesignArtifact.artifact_type := "architecture";
        DesignArtifact.content := "Three tiers" |};
     {| DesignArtifact.project_id := 1;
        DesignArtifact.artifact_type := "data_model";
        DesignArtifact.content := "Three tiers" |}].
Proof.
  apply (generation_is_append_only (client_replying "Three tiers") shop shop
           (shop_world [checkout]) Architecture DataModel
           (reply "Three tiers") (reply "Three tiers") "Three tiers" "Three tiers"
           eq_refl ltac:(discriminate) eq_refl eq_refl eq_refl eq_refl).
Defined.

Lemma empty_array_is_stored_witness :
  design_artifacts
    (db (after (generate_user_stories (client_replying "[]") Json.loads
                                      sample_str sample_float_truth shop)
               (shop_world [checkout])))
  = [{| DesignArtifact.project_id := 1;
        DesignArtifact.artifact_type := "user_stories";
        DesignArtifact.content := EmptyString |}].
Proof.
  rewrite (proj2 (empty_array_is_stored (client_replying "[]") Json.loads
                    sample_str sample_float_truth shop shop (shop_world [checkout])
                    (reply "[]") "[]"
                    eq_refl ltac:(discriminate) eq_refl eq_refl
                    ltac:(vm_compute; reflexivity))).
  reflexivity.
Defined.

Lemma rendering_succeeds_on_renderable_stories_witness :
  (exists text,
      _format_stories_for_display sample_str sample_float_truth
        (PyList [story_value "US-001" "Pay by card"; PyDict []]) = Returned text)
  /\ forallb renderable [PyDict [("acceptance_criteria", PyNone)]] = false.
Proof.
  split.
  - apply (proj2 (rendering_succeeds_on_renderable_stories sample_str sample_float_truth
                    [story_value "US-001" "Pay by card"; PyDict []])).
    reflexivity.
  - reflexivity.
Defined.

Lemma created_project_is_found_witness :
  get_project_row (db (after (create_project 2 "Blog" "A blog") (shop_world [checkout]))) 2
  = Some {| Project.id := 2; Project.name := "Blog"; Project.description := "A blog" |}.
Proof.
  apply (created_project_is_found 2 "Blog" "A blog" (shop_world [checkout])).
  intros [H | []]. discriminate H.
Defined.

Lemma delete_project_cascades_witness :
  get_project_row (db (after (delete_project 1) (shop_world [checkout]))) 1 = None
  /\ requirements (db (after (delete_project 1) (shop_world [checkout]))) = []
  /\ delete_project 2 (shop_world [checkout]) = (Returned false, shop_world [checkout]).
Proof.
  pose proof (delete_project_cascades (client_replying "Three tiers") 1
                (shop_world [checkout])) as [H _].
  pose proof (delete_project_cascades (client_replying "Three tiers") 2
                (shop_world [checkout])) as [_ H2].
  destruct (H shop eq_refl) as (_ & Hg & _).
  split; [exact Hg|]. split; [reflexivity|]. apply H2. reflexivity.
Defined.

Lemma added_requirement_enables_generation_witness :
  List.length
    (api_calls (after (generate_design (client_replying "Three tiers") Architecture shop)
                      (after (add_requirement 1 "constraints" "Hosted in the EU")
                             (shop_world []))))
  = 1.
Proof.
  rewrite (proj2 (added_requirement_enables_generation (client_replying "Three tiers")
                    1 "constraints" "Hosted in the EU" shop Architecture (shop_world [])
                    eq_refl)).
  reflexivity.
Defined.

Lemma session_never_exceeds_eight_questions_witness :
  asked (history (after (ask_next_question (client_replying "Which platform?")
                                           (Some "One more thing"))
                        (with_history (dialogue eight_answers eight_answers) shop_session)))
  <= 8.
Proof.
  apply (proj1 (session_never_exceeds_eight_questions (client_replying "Which platform?"))).
  apply Nat.leb_le. vm_compute. reflexivity.
Defined.

Lemma user_stories_rendering_failure_witness :
  result (generate_user_stories (client_replying "42") Json.loads
                                sample_str sample_float_truth shop)
         (shop_world [checkout])
  = Raised TypeError
  /\ db (after (generate_user_stories (client_replying "42") Json.loads
                                      sample_str sample_float_truth shop)
               (shop_world [checkout]))
     = shop_db [checkout].
Proof.
  apply (user_stories_rendering_failure (client_replying "42") Json.loads
           sample_str sample_float_truth shop shop (shop_world [checkout])
           (reply "42") "42" (PyInt 42) TypeError
           eq_refl ltac:(discriminate) eq_refl eq_refl
           ltac:(vm_compute; reflexivity) eq_refl).
Defined.
